(** * Beam load calculator: a shallow embedding of
    [src/components/beam-load-calculator.tsx]

    The component keeps its inputs in React state cells and recomputes, on
    every change, a result record ([calculateResults]) and two sampled
    diagram series ([calculateDiagrams]).  Both functions are arithmetic
    on JavaScript numbers.  The embedding is written once, over an
    interface [JSNumber] of the number operations the source uses, and is
    read at two instances:

    - [Binary64]: IEEE 754 binary64 with round-to-nearest-even, NaN, signed
      zeros and infinities, as specified by the Standard Library's
      [SpecFloat] at precision 53 and maximal exponent 1024.  This is what
      a JavaScript engine computes; the statements about NaN, Infinity and
      rounding of displayed values are made here.
    - [Exact]: the same code over the rationals.  The statements about the
      statics formulas (equilibrium, closed forms) are made here; in
      binary64 they hold up to rounding. *)

From Stdlib Require Import ZArith QArith Qround Qabs Qminmax.
From Stdlib Require Import List String Bool Lia Lqa.
From Stdlib Require Import SpecFloat.
Import ListNotations.

Set Implicit Arguments.

(** ** The number interface *)

Class JSNumber (N : Type) : Type := {
  (** a numeric literal of the source, given by its decimal value *)
  num : Q -> N;
  add : N -> N -> N;
  sub : N -> N -> N;
  mul : N -> N -> N;
  div : N -> N -> N;
  neg : N -> N;
  (** [<] and [<=]; [>] and [>=] are their mirrors *)
  ltb : N -> N -> bool;
  leb : N -> N -> bool;
  (** [Math.min], [Math.pow] at a literal natural exponent, [Math.PI] *)
  Math_min : N -> N -> N;
  Math_pow : N -> nat -> N;
  Math_PI : N;
  (** [toFixed x d] is the composite [Number(x.toFixed(d))] *)
  toFixed : N -> nat -> N
}.

Arguments num {N _} q%_Q.

Declare Scope js_scope.
Delimit Scope js_scope with js.
Notation "a + b" := (add a b) : js_scope.
Notation "a - b" := (sub a b) : js_scope.
Notation "a * b" := (mul a b) : js_scope.
Notation "a / b" := (div a b) : js_scope.
Notation "- a" := (neg a) : js_scope.
Notation "a <? b" := (ltb a b) : js_scope.
Notation "a <=? b" := (leb a b) : js_scope.
Notation "a >? b" := (ltb b a) : js_scope.
Notation "a >=? b" := (leb b a) : js_scope.

(** The loop counter [i] of a [for] loop, as a number. *)
Definition ofNat {N} `{JSNumber N} (i : nat) : N :=
  num (inject_Z (Z.of_nat i)).

(** ** IEEE 754 binary64 *)

Module Binary64.

Definition prec : Z := 53.
Definition emax : Z := 1024.

Definition NaN : spec_float := S754_nan.
Definition Infinity : spec_float := S754_infinity false.
Definition zero : spec_float := S754_zero false.

(** The integer [z] as an unrounded operand of a correctly rounded
    division. *)
Definition rawZ (z : Z) : spec_float :=
  match z with
  | Z0 => S754_zero false
  | Zpos p => S754_finite false p 0
  | Zneg p => S754_finite true p 0
  end.

(** The double nearest to the rational [q]: how a decimal literal is
    read. *)
Definition ofQ (q : Q) : spec_float :=
  SFdiv prec emax (rawZ (Qnum q)) (rawZ (Zpos (Qden q))).

Definition isNaN (x : spec_float) : bool :=
  match x with S754_nan => true | _ => false end.

Definition isZero (x : spec_float) : bool :=
  match x with S754_zero _ => true | _ => false end.

Definition isFinite (x : spec_float) : bool :=
  match x with S754_zero _ | S754_finite _ _ _ => true | _ => false end.

(** The sign bit; NaN has none. *)
Definition signbit (x : spec_float) : bool :=
  match x with
  | S754_zero b | S754_infinity b | S754_finite b _ _ => b
  | S754_nan => false
  end.

(** The values whose quotient is NaN. *)
Definition zeroOrNaN (x : spec_float) : bool := isZero x || isNaN x.

(** [Math.min]: NaN if an argument is NaN, and -0 is below +0. *)
Definition min (a b : spec_float) : spec_float :=
  match a, b with
  | S754_nan, _ | _, S754_nan => S754_nan
  | S754_zero sa, S754_zero sb => S754_zero (sa || sb)
  | _, _ => if SFltb a b then a else b
  end.

(** [Math.pow(x, n)] for a natural exponent, correctly rounded (ECMAScript
    leaves the last bit of the finite case to the engine; its special
    values are the ones below). *)
Definition pow (x : spec_float) (n : nat) : spec_float :=
  match n with
  | O => ofQ 1
  | S _ =>
    let odd := Nat.odd n in
    match x with
    | S754_nan => S754_nan
    | S754_infinity s => S754_infinity (s && odd)
    | S754_zero s => S754_zero (s && odd)
    | S754_finite s m e =>
      binary_round prec emax (s && odd) (Pos.pow m (Pos.of_nat n))
                   (e * Z.of_nat n)
    end
  end.

(** [l] is strictly increasing for [<]. *)
Fixpoint increasing (l : list spec_float) : bool :=
  match l with
  | a :: (b :: _) as t => SFltb a b && increasing t
  | _ => true
  end.

(** [Math.PI], 0x400921FB54442D18. *)
Definition PI : spec_float := S754_finite false 7074237752028440 (-51).

(** The integer [n] of [Number.prototype.toFixed]: the one for which
    [n / 10^d] is closest to [m * 2^e], the larger one on a tie. *)
Definition fixedDigits (m : positive) (e : Z) (d : nat) : Z :=
  let p := (10 ^ Z.of_nat d)%Z in
  match e with
  | Zneg k => ((2 * Zpos m * p + 2 ^ Zpos k) / 2 ^ (Zpos k + 1))%Z
  | _ => (Zpos m * 2 ^ e * p)%Z
  end.

(** [Number(x.toFixed(d))].  [toFixed] prints NaN and the infinities by
    name, a magnitude of at least 1e21 by [ToString] (which [Number]
    reads back exactly), and otherwise the decimal [n / 10^d] with the
    sign of [x]; [Number] rounds that decimal to the nearest double.
    A negative zero prints without a sign; a negative number that rounds
    to zero prints as "-0.00" and reads back as -0. *)
Definition numberToFixed (x : spec_float) (d : nat) : spec_float :=
  match x with
  | S754_nan => S754_nan
  | S754_infinity s => S754_infinity s
  | S754_zero _ => S754_zero false
  | S754_finite s m e =>
    if SFleb (ofQ 1e21) (SFabs x) then x
    else
      match fixedDigits m e d with
      | Zpos n =>
        SFdiv prec emax (S754_finite s n 0)
              (rawZ (10 ^ Z.of_nat d))
      | _ => S754_zero s
      end
  end.

#[export] Instance number : JSNumber spec_float := {
  num := ofQ;
  add := SFadd prec emax;
  sub := SFsub prec emax;
  mul := SFmul prec emax;
  div := SFdiv prec emax;
  neg := SFopp;
  ltb := SFltb;
  leb := SFleb;
  Math_min := min;
  Math_pow := pow;
  Math_PI := PI;
  toFixed := numberToFixed
}.

End Binary64.

(** ** Exact rational arithmetic *)

Module Exact.

(** Rounding to [d] decimals, half away from zero: [toFixed] works on the
    magnitude and picks the larger digit string on a tie. *)
Definition numberToFixed (q : Q) (d : nat) : Q :=
  let p := (10 ^ Z.of_nat d)%Z in
  let n := Qfloor (Qabs q * inject_Z p + (1 # 2)) in
  if Qle_bool 0 q then n # Z.to_pos p else (- n) # Z.to_pos p.

Fixpoint pow (q : Q) (n : nat) : Q :=
  match n with
  | O => 1
  | S k => q * pow q k
  end.

(** The rational value of the double [Math.PI]. *)
Definition PI : Q := 7074237752028440 # (2 ^ 51).

#[export] Instance number : JSNumber Q := {
  num := fun q => q;
  add := Qplus;
  sub := Qminus;
  mul := Qmult;
  div := Qdiv;
  neg := Qopp;
  ltb := fun a b => negb (Qle_bool b a);
  leb := Qle_bool;
  Math_min := Qmin;
  Math_pow := pow;
  Math_PI := PI;
  toFixed := numberToFixed
}.

End Exact.

(** ** The component *)

Open Scope string_scope.

(** The keys of [standardMaterials]. *)
Inductive MaterialName : Type :=
| ASTM_A36_Structural_Steel
| ASTM_A992_Structural_Steel
| ASTM_A572_Grade_50_Steel
| Custom.

Section Component.

Context {N : Type} `{JSNumber N}.

Local Open Scope js_scope.

Record Material : Type := {
  yieldStrength : N;
  elasticModulus : N;
  density : N;
  poissonsRatio : N;
  thermalExpansion : N
}.

Definition standardMaterials (name : MaterialName) : Material :=
  match name with
  | ASTM_A36_Structural_Steel =>
    {| yieldStrength := num 250; elasticModulus := num 200;
       density := num 7850; poissonsRatio := num 0.3;
       thermalExpansion := num 12 |}
  | ASTM_A992_Structural_Steel =>
    {| yieldStrength := num 345; elasticModulus := num 200;
       density := num 7850; poissonsRatio := num 0.3;
       thermalExpansion := num 12 |}
  | ASTM_A572_Grade_50_Steel =>
    {| yieldStrength := num 345; elasticModulus := num 200;
       density := num 7850; poissonsRatio := num 0.3;
       thermalExpansion := num 12 |}
  | Custom =>
    {| yieldStrength := num 0; elasticModulus := num 0;
       density := num 0; poissonsRatio := num 0;
       thermalExpansion := num 0 |}
  end.

(** One sample [{ x, y }] of a diagram series. *)
Record Sample : Type := { x : N; y : N }.

(** The [results] state cell. *)
Record Results : Type := {
  maxShearForce : N;
  maxBendingMoment : N;
  maxNormalStress : N;
  maxShearStress : N;
  safetyFactor : N;
  centerOfGravity : N;
  momentOfInertia : N;
  sectionModulus : N
}.

(** The state cells the two computations read. *)
Record Inputs : Type := {
  beamType : string;
  beamCrossSection : string;
  beamLength : N;
  leftSupport : N;
  rightSupport : N;
  loadType : string;
  loadMagnitude : N;
  loadStartPosition : N;
  loadEndPosition : N;
  material : MaterialName;
  customMaterial : Material;
  width : N;
  height : N;
  flangeWidth : N;
  flangeThickness : N;
  webThickness : N;
  diameter : N;
  beamDensity : N
}.

(** The state cells they write. *)
Record Outputs : Type := {
  shearForceData : list Sample;
  bendingMomentData : list Sample;
  beamWeight : N;
  results : Results
}.

(** The initial values of the [useState] calls. *)
Definition initialInputs : Inputs := {|
  beamType := "Simple Beam";
  beamCrossSection := "Rectangular";
  beamLength := num 1000;
  leftSupport := num 0;
  rightSupport := num 1000;
  loadType := "Point Load";
  loadMagnitude := num 1000;
  loadStartPosition := num 500;
  loadEndPosition := num 500;
  material := ASTM_A36_Structural_Steel;
  customMaterial := standardMaterials Custom;
  width := num 100;
  height := num 200;
  flangeWidth := num 100;
  flangeThickness := num 10;
  webThickness := num 6;
  diameter := num 100;
  beamDensity := num 7850
|}.

Definition initialOutputs : Outputs := {|
  shearForceData := [];
  bendingMomentData := [];
  beamWeight := num 0;
  results := {|
    maxShearForce := num 0; maxBendingMoment := num 0;
    maxNormalStress := num 0; maxShearStress := num 0;
    safetyFactor := num 0; centerOfGravity := num 0;
    momentOfInertia := num 0; sectionModulus := num 0 |}
|}.

(** The setters of the input cells: each replaces one cell and keeps the
    others. *)
Definition setBeamType (v : string) (c : Inputs) : Inputs :=
  {| beamType := v; beamCrossSection := beamCrossSection c;
     beamLength := beamLength c; leftSupport := leftSupport c;
     rightSupport := rightSupport c; loadType := loadType c;
     loadMagnitude := loadMagnitude c;
     loadStartPosition := loadStartPosition c;
     loadEndPosition := loadEndPosition c; material := material c;
     customMaterial := customMaterial c; width := width c;
     height := height c; flangeWidth := flangeWidth c;
     flangeThickness := flangeThickness c; webThickness := webThickness c;
     diameter := diameter c; beamDensity := beamDensity c |}.

Definition setBeamCrossSection (v : string) (c : Inputs) : Inputs :=
  {| beamType := beamType c; beamCrossSection := v;
     beamLength := beamLength c; leftSupport := leftSupport c;
     rightSupport := rightSupport c; loadType := loadType c;
     loadMagnitude := loadMagnitude c;
     loadStartPosition := loadStartPosition c;
     loadEndPosition := loadEndPosition c; material := material c;
     customMaterial := customMaterial c; width := width c;
     height := height c; flangeWidth := flangeWidth c;
     flangeThickness := flangeThickness c; webThickness := webThickness c;
     diameter := diameter c; beamDensity := beamDensity c |}.

Definition setBeamLength (v : N) (c : Inputs) : Inputs :=
  {| beamType := beamType c; beamCrossSection := beamCrossSection c;
     beamLength := v; leftSupport := leftSupport c;
     rightSupport := rightSupport c; loadType := loadType c;
     loadMagnitude := loadMagnitude c;
     loadStartPosition := loadStartPosition c;
     loadEndPosition := loadEndPosition c; material := material c;
     customMaterial := customMaterial c; width := width c;
     height := height c; flangeWidth := flangeWidth c;
     flangeThickness := flangeThickness c; webThickness := webThickness c;
     diameter := diameter c; beamDensity := beamDensity c |}.

Definition setLeftSupport (v : N) (c : Inputs) : Inputs :=
  {| beamType := beamType c; beamCrossSection := beamCrossSection c;
     beamLength := beamLength c; leftSupport := v;
     rightSupport := rightSupport c; loadType := loadType c;
     loadMagnitude := loadMagnitude c;
     loadStartPosition := loadStartPosition c;
     loadEndPosition := loadEndPosition c; material := material c;
     customMaterial := customMaterial c; width := width c;
     height := height c; flangeWidth := flangeWidth c;
     flangeThickness := flangeThickness c; webThickness := webThickness c;
     diameter := diameter c; beamDensity := beamDensity c |}.

Definition setRightSupport (v : N) (c : Inputs) : Inputs :=
  {| beamType := beamType c; beamCrossSection := beamCrossSection c;
     beamLength := beamLength c; leftSupport := leftSupport c;
     rightSupport := v; loadType := loadType c;
     loadMagnitude := loadMagnitude c;
     loadStartPosition := loadStartPosition c;
     loadEndPosition := loadEndPosition c; material := material c;
     customMaterial := customMaterial c; width := width c;
     height := height c; flangeWidth := flangeWidth c;
     flangeThickness := flangeThickness c; webThickness := webThickness c;
     diameter := diameter c; beamDensity := beamDensity c |}.

Definition setLoadType (v : string) (c : Inputs) : Inputs :=
  {| beamType := beamType c; beamCrossSection := beamCrossSection c;
     beamLength := beamLength c; leftSupport := leftSupport c;
     rightSupport := rightSupport c; loadType := v;
     loadMagnitude := loadMagnitude c;
     loadStartPosition := loadStartPosition c;
     loadEndPosition := loadEndPosition c; material := material c;
     customMaterial := customMaterial c; width := width c;
     height := height c; flangeWidth := flangeWidth c;
     flangeThickness := flangeThickness c; webThickness := webThickness c;
     diameter := diameter c; beamDensity := beamDensity c |}.

Definition setLoadMagnitude (v : N) (c : Inputs) : Inputs :=
  {| beamType := beamType c; beamCrossSection := beamCrossSection c;
     beamLength := beamLength c; leftSupport := leftSupport c;
     rightSupport := rightSupport c; loadType := loadType c;
     loadMagnitude := v; loadStartPosition := loadStartPosition c;
     loadEndPosition := loadEndPosition c; material := material c;
     customMaterial := customMaterial c; width := width c;
     height := height c; flangeWidth := flangeWidth c;
     flangeThickness := flangeThickness c; webThickness := webThickness c;
     diameter := diameter c; beamDensity := beamDensity c |}.

Definition setLoadStartPosition (v : N) (c : Inputs) : Inputs :=
  {| beamType := beamType c; beamCrossSection := beamCrossSection c;
     beamLength := beamLength c; leftSupport := leftSupport c;
     rightSupport := rightSupport c; loadType := loadType c;
     loadMagnitude := loadMagnitude c; loadStartPosition := v;
     loadEndPosition := loadEndPosition c; material := material c;
     customMaterial := customMaterial c; width := width c;
     height := height c; flangeWidth := flangeWidth c;
     flangeThickness := flangeThickness c; webThickness := webThickness c;
     diameter := diameter c; beamDensity := beamDensity c |}.

Definition setLoadEndPosition (v : N) (c : Inputs) : Inputs :=
  {| beamType := beamType c; beamCrossSection := beamCrossSection c;
     beamLength := beamLength c; leftSupport := leftSupport c;
     rightSupport := rightSupport c; loadType := loadType c;
     loadMagnitude := loadMagnitude c;
     loadStartPosition := loadStartPosition c; loadEndPosition := v;
     material := material c; customMaterial := customMaterial c;
     width := width c; height := height c; flangeWidth := flangeWidth c;
     flangeThickness := flangeThickness c; webThickness := webThickness c;
     diameter := diameter c; beamDensity := beamDensity c |}.

Definition setMaterial (v : MaterialName) (c : Inputs) : Inputs :=
  {| beamType := beamType c; beamCrossSection := beamCrossSection c;
     beamLength := beamLength c; leftSupport := leftSupport c;
     rightSupport := rightSupport c; loadType := loadType c;
     loadMagnitude := loadMagnitude c;
     loadStartPosition := loadStartPosition c;
     loadEndPosition := loadEndPosition c; material := v;
     customMaterial := customMaterial c; width := width c;
     height := height c; flangeWidth := flangeWidth c;
     flangeThickness := flangeThickness c; webThickness := webThickness c;
     diameter := diameter c; beamDensity := beamDensity c |}.

Definition setCustomMaterial (v : Material) (c : Inputs) : Inputs :=
  {| beamType := beamType c; beamCrossSection := beamCrossSection c;
     beamLength := beamLength c; leftSupport := leftSupport c;
     rightSupport := rightSupport c; loadType := loadType c;
     loadMagnitude := loadMagnitude c;
     loadStartPosition := loadStartPosition c;
     loadEndPosition := loadEndPosition c; material := material c;
     customMaterial := v; width := width c; height := height c;
     flangeWidth := flangeWidth c; flangeThickness := flangeThickness c;
     webThickness := webThickness c; diameter := diameter c;
     beamDensity := beamDensity c |}.

Definition setWidth (v : N) (c : Inputs) : Inputs :=
  {| beamType := beamType c; beamCrossSection := beamCrossSection c;
     beamLength := beamLength c; leftSupport := leftSupport c;
     rightSupport := rightSupport c; loadType := loadType c;
     loadMagnitude := loadMagnitude c;
     loadStartPosition := loadStartPosition c;
     loadEndPosition := loadEndPosition c; material := material c;
     customMaterial := customMaterial c; width := v; height := height c;
     flangeWidth := flangeWidth c; flangeThickness := flangeThickness c;
     webThickness := webThickness c; diameter := diameter c;
     beamDensity := beamDensity c |}.

Definition setHeight (v : N) (c : Inputs) : Inputs :=
  {| beamType := beamType c; beamCrossSection := beamCrossSection c;
     beamLength := beamLength c; leftSupport := leftSupport c;
     rightSupport := rightSupport c; loadType := loadType c;
     loadMagnitude := loadMagnitude c;
     loadStartPosition := loadStartPosition c;
     loadEndPosition := loadEndPosition c; material := material c;
     customMaterial := customMaterial c; width := width c; height := v;
     flangeWidth := flangeWidth c; flangeThickness := flangeThickness c;
     webThickness := webThickness c; diameter := diameter c;
     beamDensity := beamDensity c |}.

Definition setFlangeWidth (v : N) (c : Inputs) : Inputs :=
  {| beamType := beamType c; beamCrossSection := beamCrossSection c;
     beamLength := beamLength c; leftSupport := leftSupport c;
     rightSupport := rightSupport c; loadType := loadType c;
     loadMagnitude := loadMagnitude c;
     loadStartPosition := loadStartPosition c;
     loadEndPosition := loadEndPosition c; material := material c;
     customMaterial := customMaterial c; width := width c;
     height := height c; flangeWidth := v;
     flangeThickness := flangeThickness c; webThickness := webThickness c;
     diameter := diameter c; beamDensity := beamDensity c |}.

Definition setFlangeThickness (v : N) (c : Inputs) : Inputs :=
  {| beamType := beamType c; beamCrossSection := beamCrossSection c;
     beamLength := beamLength c; leftSupport := leftSupport c;
     rightSupport := rightSupport c; loadType := loadType c;
     loadMagnitude := loadMagnitude c;
     loadStartPosition := loadStartPosition c;
     loadEndPosition := loadEndPosition c; material := material c;
     customMaterial := customMaterial c; width := width c;
     height := height c; flangeWidth := flangeWidth c;
     flangeThickness := v; webThickness := webThickness c;
     diameter := diameter c; beamDensity := beamDensity c |}.

Definition setWebThickness (v : N) (c : Inputs) : Inputs :=
  {| beamType := beamType c; beamCrossSection := beamCrossSection c;
     beamLength := beamLength c; leftSupport := leftSupport c;
     rightSupport := rightSupport c; loadType := loadType c;
     loadMagnitude := loadMagnitude c;
     loadStartPosition := loadStartPosition c;
     loadEndPosition := loadEndPosition c; material := material c;
     customMaterial := customMaterial c; width := width c;
     height := height c; flangeWidth := flangeWidth c;
     flangeThickness := flangeThickness c; webThickness := v;
     diameter := diameter c; beamDensity := beamDensity c |}.

Definition setDiameter (v : N) (c : Inputs) : Inputs :=
  {| beamType := beamType c; beamCrossSection := beamCrossSection c;
     beamLength := beamLength c; leftSupport := leftSupport c;
     rightSupport := rightSupport c; loadType := loadType c;
     loadMagnitude := loadMagnitude c;
     loadStartPosition := loadStartPosition c;
     loadEndPosition := loadEndPosition c; material := material c;
     customMaterial := customMaterial c; width := width c;
     height := height c; flangeWidth := flangeWidth c;
     flangeThickness := flangeThickness c; webThickness := webThickness c;
     diameter := v; beamDensity := beamDensity c |}.

Definition setBeamDensity (v : N) (c : Inputs) : Inputs :=
  {| beamType := beamType c; beamCrossSection := beamCrossSection c;
     beamLength := beamLength c; leftSupport := leftSupport c;
     rightSupport := rightSupport c; loadType := loadType c;
     loadMagnitude := loadMagnitude c;
     loadStartPosition := loadStartPosition c;
     loadEndPosition := loadEndPosition c; material := material c;
     customMaterial := customMaterial c; width := width c;
     height := height c; flangeWidth := flangeWidth c;
     flangeThickness := flangeThickness c; webThickness := webThickness c;
     diameter := diameter c; beamDensity := v |}.

(** *** [calculateResults] *)

(** The first [switch] of [calculateResults]: the volume of the beam, in
    cubic metres. *)
Definition beamVolume (c : Inputs) : N :=
  let beamLengthM := beamLength c / num 1000 in
  let widthM := width c / num 1000 in
  let heightM := height c / num 1000 in
  let flangeWidthM := flangeWidth c / num 1000 in
  let flangeThicknessM := flangeThickness c / num 1000 in
  let webThicknessM := webThickness c / num 1000 in
  let diameterM := diameter c / num 1000 in
  if beamCrossSection c =? "Rectangular" then
    widthM * heightM * beamLengthM
  else if beamCrossSection c =? "I Beam" then
    (num 2 * flangeWidthM * flangeThicknessM
     + (heightM - num 2 * flangeThicknessM) * webThicknessM) * beamLengthM
  else if beamCrossSection c =? "C Channel" then
    (num 2 * flangeWidthM * flangeThicknessM
     + (heightM - num 2 * flangeThicknessM) * webThicknessM) * beamLengthM
  else if beamCrossSection c =? "Circular" then
    Math_PI * Math_pow (diameterM / num 2) 2 * beamLengthM
  else
    widthM * heightM * beamLengthM.

Definition beamWeightN (c : Inputs) : N :=
  beamVolume c * beamDensity c * num 9.81.

(** The second [switch]: [(area, momentOfInertia, sectionModulus)], before
    they are rounded for display. *)
Definition sectionProperties (c : Inputs) : N * N * N :=
  let widthM := width c / num 1000 in
  let heightM := height c / num 1000 in
  let flangeWidthM := flangeWidth c / num 1000 in
  let flangeThicknessM := flangeThickness c / num 1000 in
  let webThicknessM := webThickness c / num 1000 in
  let diameterM := diameter c / num 1000 in
  if beamCrossSection c =? "Rectangular" then
    let area := widthM * heightM in
    let momentOfInertia := (widthM * Math_pow heightM 3) / num 12 in
    let sectionModulus := momentOfInertia / (heightM / num 2) in
    (area, momentOfInertia, sectionModulus)
  else if beamCrossSection c =? "I Beam" then
    let area := num 2 * flangeWidthM * flangeThicknessM
                + (heightM - num 2 * flangeThicknessM) * webThicknessM in
    let I_flange :=
      (flangeWidthM * Math_pow flangeThicknessM 3) / num 6
      + num 2 * flangeWidthM * flangeThicknessM
        * Math_pow ((heightM - flangeThicknessM) / num 2) 2 in
    let I_web :=
      (webThicknessM * Math_pow (heightM - num 2 * flangeThicknessM) 3)
      / num 12 in
    let momentOfInertia := num 2 * I_flange + I_web in
    let sectionModulus := momentOfInertia / (heightM / num 2) in
    (area, momentOfInertia, sectionModulus)
  else if beamCrossSection c =? "C Channel" then
    let area := num 2 * flangeWidthM * flangeThicknessM
                + (heightM - num 2 * flangeThicknessM) * webThicknessM in
    let I_flange_c :=
      (flangeWidthM * Math_pow flangeThicknessM 3) / num 12
      + flangeWidthM * flangeThicknessM
        * Math_pow ((heightM - flangeThicknessM) / num 2) 2 in
    let I_web_c :=
      (webThicknessM * Math_pow (heightM - num 2 * flangeThicknessM) 3)
      / num 12 in
    let momentOfInertia := num 2 * I_flange_c + I_web_c in
    let sectionModulus := momentOfInertia / (heightM / num 2) in
    (area, momentOfInertia, sectionModulus)
  else if beamCrossSection c =? "Circular" then
    let area := Math_PI * Math_pow (diameterM / num 2) 2 in
    let momentOfInertia := (Math_PI * Math_pow diameterM 4) / num 64 in
    let sectionModulus := momentOfInertia / (diameterM / num 2) in
    (area, momentOfInertia, sectionModulus)
  else
    let area := widthM * heightM in
    let momentOfInertia := (widthM * Math_pow heightM 3) / num 12 in
    let sectionModulus := momentOfInertia / (heightM / num 2) in
    (area, momentOfInertia, sectionModulus).

(** The three locals of that [switch], one by one. *)
Definition area (c : Inputs) : N := fst (fst (sectionProperties c)).
Definition rawMomentOfInertia (c : Inputs) : N :=
  snd (fst (sectionProperties c)).
Definition rawSectionModulus (c : Inputs) : N :=
  snd (sectionProperties c).

(** The center-of-gravity accumulators [(totalMoment, totalForce)] after
    the load has been added to the beam's own weight. *)
Definition totals (c : Inputs) : N * N :=
  let beamLengthM := beamLength c / num 1000 in
  let loadStartPositionM := loadStartPosition c / num 1000 in
  let loadEndPositionM := loadEndPosition c / num 1000 in
  let beamWeightN := beamWeightN c in
  let totalMoment := beamWeightN * (beamLengthM / num 2) in
  let totalForce := beamWeightN in
  if loadType c =? "Point Load" then
    (totalMoment + loadMagnitude c * loadStartPositionM,
     totalForce + loadMagnitude c)
  else if loadType c =? "Uniform Load" then
    let loadLength := loadEndPositionM - loadStartPositionM in
    let totalLoad := loadMagnitude c * loadLength in
    (totalMoment + totalLoad * (loadStartPositionM + loadLength / num 2),
     totalForce + totalLoad)
  else (totalMoment, totalForce).

Definition materialProps (c : Inputs) : Material :=
  match material c with
  | Custom => customMaterial c
  | name => standardMaterials name
  end.

(** [calculateResults] writes [beamWeight], clears the two series and
    writes [results]; it returns no value and raises nothing.  The
    running maxima are declared and never assigned again. *)
Definition calculateResults (c : Inputs) (o : Outputs) : Outputs :=
  let newShearForceData : list Sample := [] in
  let newBendingMomentData : list Sample := [] in
  let maxShearForce := num 0 in
  let maxBendingMoment := num 0 in
  let beamWeightN := beamWeightN c in
  let '(totalMoment, totalForce) := totals c in
  let centerOfGravity := totalMoment / totalForce in
  let materialProps := materialProps c in
  let '(area, momentOfInertia, sectionModulus) := sectionProperties c in
  let maxNormalStress := (maxBendingMoment / sectionModulus) / num 1e6 in
  let maxShearStress := (num 1.5 * maxShearForce / area) / num 1e6 in
  {| shearForceData := newShearForceData;
     bendingMomentData := newBendingMomentData;
     beamWeight := toFixed beamWeightN 2;
     results := {|
       maxShearForce := toFixed maxShearForce 2;
       maxBendingMoment := toFixed maxBendingMoment 2;
       maxNormalStress := toFixed maxNormalStress 2;
       maxShearStress := toFixed maxShearStress 2;
       safetyFactor :=
         toFixed (yieldStrength materialProps / maxNormalStress) 2;
       centerOfGravity := toFixed centerOfGravity 3;
       momentOfInertia := toFixed momentOfInertia 6;
       sectionModulus := toFixed sectionModulus 6 |} |}.

(** *** [calculateDiagrams] *)

Definition numPoints : nat := 100.

Definition dx (c : Inputs) : N :=
  beamLength c / (ofNat numPoints - num 1).

(** The reaction forces [(R1, R2)] that the loop body computes at every
    sample (they do not depend on [i]). *)
Definition reactions (c : Inputs) : N * N :=
  let R1 := num 0 in
  let R2 := num 0 in
  if beamType c =? "Simple Beam" then
    if loadType c =? "Point Load" then
      (loadMagnitude c * (rightSupport c - loadStartPosition c)
         / (rightSupport c - leftSupport c),
       loadMagnitude c * (loadStartPosition c - leftSupport c)
         / (rightSupport c - leftSupport c))
    else if loadType c =? "Uniform Load" then
      let loadLength := loadEndPosition c - loadStartPosition c in
      let totalLoad := loadMagnitude c * loadLength in
      let loadCentroid :=
        (loadStartPosition c + loadEndPosition c) / num 2 in
      (totalLoad * (rightSupport c - loadCentroid)
         / (rightSupport c - leftSupport c),
       totalLoad * (loadCentroid - leftSupport c)
         / (rightSupport c - leftSupport c))
    else (R1, R2)
  else if beamType c =? "Cantilever Beam" then
    if loadType c =? "Point Load" then (loadMagnitude c, R2)
    else if loadType c =? "Uniform Load" then
      let loadLength := loadEndPosition c - loadStartPosition c in
      (loadMagnitude c * loadLength, R2)
    else (R1, R2)
  else (R1, R2).

(** The shear force and bending moment of the loop body at position [x],
    before rounding. *)
Definition shearAndMoment (c : Inputs) (x : N) : N * N :=
  let shear := num 0 in
  let moment := num 0 in
  let '(R1, R2) := reactions c in
  if beamType c =? "Simple Beam" then
    let shear := if x >=? leftSupport c then shear + R1 else shear in
    let shear := if x >=? rightSupport c then shear - R2 else shear in
    let shear :=
      if (loadType c =? "Point Load") && (x >=? loadStartPosition c) then
        shear - loadMagnitude c
      else if (loadType c =? "Uniform Load")
              && (x >=? loadStartPosition c) then
        let loadedLength :=
          Math_min (x - loadStartPosition c)
                   (loadEndPosition c - loadStartPosition c) in
        shear - loadMagnitude c * loadedLength
      else shear in
    let moment := R1 * (x - leftSupport c) in
    let moment :=
      if x >? rightSupport c then moment - R2 * (x - rightSupport c)
      else moment in
    let moment :=
      if (loadType c =? "Point Load") && (x >? loadStartPosition c) then
        moment - loadMagnitude c * (x - loadStartPosition c)
      else if (loadType c =? "Uniform Load")
              && (x >? loadStartPosition c) then
        let loadedLength :=
          Math_min (x - loadStartPosition c)
                   (loadEndPosition c - loadStartPosition c) in
        let loadCentroid := loadStartPosition c + loadedLength / num 2 in
        moment - loadMagnitude c * loadedLength * (x - loadCentroid)
      else moment in
    (shear, moment)
  else if beamType c =? "Cantilever Beam" then
    if loadType c =? "Point Load" then
      if x <=? loadStartPosition c then
        (- loadMagnitude c,
         - loadMagnitude c * (beamLength c - loadStartPosition c))
      else (num 0, num 0)
    else if loadType c =? "Uniform Load" then
      let loadLength := loadEndPosition c - loadStartPosition c in
      if x <=? loadStartPosition c then
        (- loadMagnitude c * loadLength,
         - loadMagnitude c * loadLength
           * (beamLength c
              - (loadStartPosition c + loadEndPosition c) / num 2))
      else if (x >? loadStartPosition c) && (x <? loadEndPosition c) then
        let remainingLength := loadEndPosition c - x in
        (- loadMagnitude c * remainingLength,
         - loadMagnitude c * remainingLength * remainingLength / num 2)
      else (num 0, num 0)
    else (shear, moment)
  else (shear, moment).

(** One turn of the loop: the two samples pushed for the counter [i]. *)
Definition samplesAt (c : Inputs) (i : nat) : Sample * Sample :=
  let x := ofNat i * dx c in
  let '(shear, moment) := shearAndMoment c x in
  ({| x := toFixed x 2; y := toFixed shear 2 |},
   {| x := toFixed x 2; y := toFixed moment 2 |}).

(** [for (let i = 0; i < numPoints; i++)], pushing onto the two arrays. *)
Definition calculateDiagrams (c : Inputs) (o : Outputs) : Outputs :=
  let shearForce := map (fun i => fst (samplesAt c i)) (seq 0 numPoints) in
  let bendingMoment :=
    map (fun i => snd (samplesAt c i)) (seq 0 numPoints) in
  {| shearForceData := shearForce;
     bendingMomentData := bendingMoment;
     beamWeight := beamWeight o;
     results := results o |}.

(** The [x] coordinates of a series, in order. *)
Definition positions (l : list Sample) : list N := map x l.

(** The effect that runs on every change of an input. *)
Definition useEffect (c : Inputs) (o : Outputs) : Outputs :=
  calculateDiagrams c (calculateResults c o).

End Component.

Arguments Material N : clear implicits.
Arguments Sample N : clear implicits.
Arguments Results N : clear implicits.
Arguments Inputs N : clear implicits.
Arguments Outputs N : clear implicits.

Existing Instance Binary64.number.
Existing Instance Exact.number.

(** ** Quantities of the specification *)

Section Specification.

Local Open Scope Q_scope.



End Specification.

(** A cantilever with a point load of 1000 N at the free end of a 1000 mm
    beam. *)
Definition cantileverEndLoad : Inputs spec_float :=
  setLoadStartPosition (num 1000)
    (setBeamType "Cantilever Beam" initialInputs).

(** ** The [BeamDiagram] component

    The drawing of the beam: a 500 x 200 SVG whose beam line runs from
    [margin] to [svgWidth - margin]; supports and load arrows are placed
    along it in proportion to their position on the beam. *)

Module BeamDiagram.

Section Geometry.

Context {N : Type} `{JSNumber N}.

Local Open Scope js_scope.

Record Props : Type := {
  beamLength : N;
  leftSupport : N;
  rightSupport : N;
  loadType : string;
  loadStartPosition : N;
  loadEndPosition : N;
  loadMagnitude : N
}.

Definition svgWidth : N := num 500.
Definition svgHeight : N := num 200.
Definition margin : N := num 40.
Definition beamY : N := svgHeight / num 2.
Definition supportSize : N := num 30.

Definition leftSupportX (p : Props) : N :=
  margin + (leftSupport p / beamLength p) * (svgWidth - num 2 * margin).

Definition rightSupportX (p : Props) : N :=
  margin + (rightSupport p / beamLength p) * (svgWidth - num 2 * margin).

Definition loadStartX (p : Props) : N :=
  margin
  + (loadStartPosition p / beamLength p) * (svgWidth - num 2 * margin).

Definition loadEndX (p : Props) : N :=
  margin + (loadEndPosition p / beamLength p) * (svgWidth - num 2 * margin).

(** The [x] of the arrow drawn for [index] by
    [Array.from({ length: 5 }).map]. *)
Definition arrowX (p : Props) (index : nat) : N :=
  loadStartX p + ((loadEndX p - loadStartX p) / num 4) * ofNat index.

(** The [x] coordinates of the load arrows: one arrow for a point load,
    five for any other load type. *)
Definition loadArrows (p : Props) : list N :=
  if loadType p =? "Point Load" then [loadStartX p]
  else map (arrowX p) (seq 0 5).

(** The [x] of the magnitude label. *)
Definition labelX (p : Props) : N := (loadStartX p + loadEndX p) / num 2.

(** The three corners of a support triangle whose apex is at [sx]. *)
Definition supportPolygon (sx : N) : list (N * N) :=
  [ (sx, beamY);
    (sx - supportSize / num 2, beamY + supportSize);
    (sx + supportSize / num 2, beamY + supportSize) ].

End Geometry.

Arguments Props N : clear implicits.

End BeamDiagram.

(** The props that [BeamLoadCalculatorComponent] passes to
    [BeamDiagram]. *)
Definition beamDiagramProps {N : Type} (c : Inputs N)
  : BeamDiagram.Props N :=
  {| BeamDiagram.beamLength := beamLength c;
     BeamDiagram.leftSupport := leftSupport c;
     BeamDiagram.rightSupport := rightSupport c;
     BeamDiagram.loadType := loadType c;
     BeamDiagram.loadStartPosition := loadStartPosition c;
     BeamDiagram.loadEndPosition := loadEndPosition c;
     BeamDiagram.loadMagnitude := loadMagnitude c |}.

(** ** Quantities of the results, in exact arithmetic *)

Section ResultQuantities.

Local Open Scope Q_scope.



(** The dimensions a cross-section reads are positive, and the flanges of
    an I-beam or a channel leave a web between them. *)
Definition validGeometry (c : Inputs Q) : Prop :=
  if ((beamCrossSection c =? "I Beam")
      || (beamCrossSection c =? "C Channel"))%string
  then 0 < flangeWidth c /\ 0 < flangeThickness c /\ 0 < webThickness c
       /\ 2 * flangeThickness c < height c
  else if (beamCrossSection c =? "Circular")%string then 0 < diameter c
  else 0 < width c /\ 0 < height c.

End ResultQuantities.

(** * Properties *)

(** ** What [calculateResults] stores in each field

    These equations hold at every number instance: they only unfold the
    record that [calculateResults] builds. *)

Section ResultFields.

Context {N : Type} `{JSNumber N}.
Variables (c : Inputs N) (o : Outputs N).

Local Open Scope js_scope.

Local Ltac stored :=
  unfold calculateResults, area, rawMomentOfInertia, rawSectionModulus;
  destruct (totals c), (sectionProperties c) as [[? ?] ?]; reflexivity.

Lemma maxShearForce_stored :
  maxShearForce (results (calculateResults c o)) = toFixed (num 0) 2.
Proof. stored. Qed.

Lemma maxBendingMoment_stored :
  maxBendingMoment (results (calculateResults c o)) = toFixed (num 0) 2.
Proof. stored. Qed.

Lemma maxNormalStress_stored :
  maxNormalStress (results (calculateResults c o)) =
  toFixed ((num 0 / rawSectionModulus c) / num 1e6) 2.
Proof. stored. Qed.

Lemma maxShearStress_stored :
  maxShearStress (results (calculateResults c o)) =
  toFixed ((num 1.5 * num 0 / area c) / num 1e6) 2.
Proof. stored. Qed.

Lemma safetyFactor_stored :
  safetyFactor (results (calculateResults c o)) =
  toFixed (yieldStrength (materialProps c)
           / ((num 0 / rawSectionModulus c) / num 1e6)) 2.
Proof. stored. Qed.

Lemma centerOfGravity_stored :
  centerOfGravity (results (calculateResults c o)) =
  toFixed (fst (totals c) / snd (totals c)) 3.
Proof. stored. Qed.

Lemma useEffect_results :
  results (useEffect c o) = results (calculateResults c o).
Proof. reflexivity. Qed.

End ResultFields.

(** ** Special values of binary64 arithmetic *)

Module Binary64Facts.

Import Binary64.

Local Open Scope js_scope.

Implicit Types x y a s : spec_float.

Lemma mul_zeroOrNaN_l x y :
  zeroOrNaN x = true -> zeroOrNaN (x * y) = true.
Proof. destruct x, y; simpl; trivial; discriminate. Qed.

Lemma mul_zeroOrNaN_r x y :
  zeroOrNaN y = true -> zeroOrNaN (x * y) = true.
Proof. destruct x, y; simpl; trivial; discriminate. Qed.

Lemma add_zeroOrNaN x y :
  zeroOrNaN x = true -> zeroOrNaN y = true -> zeroOrNaN (x + y) = true.
Proof.
  destruct x as [[]|[]| |], y as [[]|[]| |]; simpl; trivial; discriminate.
Qed.

Lemma div_zeroOrNaN x y :
  zeroOrNaN x = true -> zeroOrNaN y = true -> x / y = NaN.
Proof. destruct x, y; simpl; trivial; discriminate. Qed.

(** [x - x] is +0 for a finite [x] and NaN otherwise. *)
Lemma sub_diag x :
  x - x = if isFinite x then zero else NaN.
Proof.
  destruct x as [[]|[]| |b m e]; try reflexivity.
  simpl. unfold SFsub. rewrite Z.sub_diag. reflexivity.
Qed.

Lemma sub_diag_zeroOrNaN x : zeroOrNaN (x - x) = true.
Proof. rewrite sub_diag. destruct (isFinite x); reflexivity. Qed.

(** [x === y] holds of one number taken twice and of two zeros of any
    signs; it fails on NaN. *)
Lemma SFeqb_true x y :
  SFeqb x y = true -> x = y \/ (isZero x = true /\ isZero y = true).
Proof.
  unfold SFeqb.
  destruct x as [bx|bx| |bx mx ex], y as [b'|b'| |b' my ey];
    cbn [SFcompare]; auto;
    try discriminate;
    try (destruct bx; discriminate); try (destruct b'; discriminate).
  - destruct bx, b'; try discriminate; auto.
  - change (Pos.compare_cont Eq mx my) with (Pos.compare mx my).
    destruct bx, b'; try discriminate;
      destruct (Z.compare_spec ex ey) as [-> | |]; try discriminate;
      destruct (Pos.compare_spec mx my) as [-> | |];
      try discriminate; auto.
Qed.


Lemma sub_equal_thousandths_zeroOrNaN x y :
  SFeqb x y = true -> zeroOrNaN (x / num 1000 - y / num 1000) = true.
Proof.
  intro E. destruct (SFeqb_true _ _ E) as [-> | [Hx Hy]].
  - apply sub_diag_zeroOrNaN.
  - destruct x as [[]| | |], y as [[]| | |]; try discriminate; reflexivity.
Qed.


(** The stored stresses, by cases on the section modulus and the area:
    the numerator is the constant 0. *)
Lemma zero_stress s :
  toFixed ((num 0 / s) / num 1e6) 2
  = if zeroOrNaN s then NaN else zero.
Proof. destruct s as [[]|[]| |[] m e]; reflexivity. Qed.

Lemma zero_shear_stress a :
  toFixed ((num 1.5 * num 0 / a) / num 1e6) 2
  = if zeroOrNaN a then NaN else zero.
Proof. destruct a as [[]|[]| |[] m e]; reflexivity. Qed.

(** The stored safety factor, by cases on the yield strength and the
    section modulus: the denominator is a zero or NaN. *)
Lemma infinite_safety y s :
  toFixed (y / ((num 0 / s) / num 1e6)) 2
  = if zeroOrNaN s || zeroOrNaN y then NaN
    else S754_infinity (xorb (signbit y) (signbit s)).
Proof.
  destruct s as [[]|[]| |[] m e], y as [[]|[]| |[] m' e']; reflexivity.
Qed.

End Binary64Facts.

(** ** The initial configuration in binary64

    The rectangular 100 x 200 mm section on a 1000 mm span, simply
    supported at both ends, with 1000 N at midspan. *)

Section Binary64Initial.

Import Binary64.

Let c : Inputs spec_float := initialInputs.
Let out : Outputs spec_float := useEffect c initialOutputs.

Example initial_reactions : reactions c = (num 500, num 500).
Proof. reflexivity. Qed.

Example initial_results :
  beamWeight out = num 1540.17 /\
  centerOfGravity (results out) = num 0.5 /\
  momentOfInertia (results out) = num 0.000067 /\
  sectionModulus (results out) = num 0.000667 /\
  safetyFactor (results out) = Infinity.
Proof. vm_compute. repeat split. Qed.

Example initial_positions :
  let xs := positions (shearForceData out) in
  hd_error xs = Some (num 0) /\ nth 1 xs NaN = num 10.1 /\
  nth 99 xs NaN = num 1000 /\ increasing xs = true.
Proof. vm_compute. repeat split. Qed.

Example initial_midspan_moment :
  option_map (@y _) (nth_error (bendingMomentData out) 49)
  = Some (num 247474.75).
Proof. reflexivity. Qed.

End Binary64Initial.

(** ** The results record in binary64 *)

Section Binary64Results.

Import Binary64 Binary64Facts.

Local Open Scope js_scope.

Implicit Types (c : Inputs spec_float) (o : Outputs spec_float).

(** C1, as the code has it: the two maxima stored by [calculateResults]
    are +0 for every input, since their accumulators are the constant 0.
    The two stresses derived from them are +0 exactly when the divisor
    (section modulus, area) is a nonzero number; a divisor that is 0 or
    NaN makes the stress NaN. *)
Theorem maxima_stay_zero c o :
  let r := results (calculateResults c o) in
  maxShearForce r = zero /\
  maxBendingMoment r = zero /\
  maxNormalStress r
  = (if zeroOrNaN (rawSectionModulus c) then NaN else zero) /\
  maxShearStress r = (if zeroOrNaN (area c) then NaN else zero).
Proof.
  cbv zeta. repeat split.
  - rewrite maxShearForce_stored. reflexivity.
  - rewrite maxBendingMoment_stored. reflexivity.
  - rewrite maxNormalStress_stored. apply zero_stress.
  - rewrite maxShearStress_stored. apply zero_shear_stress.
Qed.

(** C1 fails as stated: with the width cell at 0 (what clearing the
    input field stores) the area and the section modulus are 0, and both
    stresses are stored as NaN, not 0. *)
Lemma stresses_NaN_at_zero_width :
  let r := results (calculateResults (setWidth (num 0) initialInputs)
                                     initialOutputs) in
  maxNormalStress r = NaN /\ maxShearStress r = NaN /\
  SFeqb (maxNormalStress r) (num 0) = false /\
  SFeqb (maxShearStress r) (num 0) = false.
Proof. vm_compute. repeat split. Qed.

(** C4 at that input: the reported maximum bending moment is 0, not
    magnitude * length = 1e6, and every sample of the moment series is
    zero as well. *)
Theorem cantilever_max_moment_reported_zero :
  let c := cantileverEndLoad in
  let out := useEffect c initialOutputs in
  loadStartPosition c = beamLength c /\
  loadMagnitude c * beamLength c = num 1e6 /\
  maxBendingMoment (results out) = zero /\
  forallb (fun p => isZero (y p)) (bendingMomentData out) = true.
Proof. vm_compute. repeat split. Qed.

(** C6, as the code has it: the stored safety factor is never a finite
    number.  It is NaN when the yield strength is 0 or NaN (the Custom
    material starts at 0) or the section modulus is 0 or NaN, and an
    infinity carrying the signs of the two otherwise.  The function has
    one result type, with no failure alternative. *)
Theorem safetyFactor_is_NaN_or_infinite c o :
  safetyFactor (results (calculateResults c o)) =
  let y := yieldStrength (materialProps c) in
  let s := rawSectionModulus c in
  if zeroOrNaN s || zeroOrNaN y then NaN
  else S754_infinity (xorb (signbit y) (signbit s)).
Proof. rewrite safetyFactor_stored. apply infinite_safety. Qed.

(** C6 fails as stated: with the Custom material selected and its yield
    strength still at the initial 0, the normal stress is 0 and the safety
    factor is stored as NaN. *)
Lemma safetyFactor_NaN_for_custom_material :
  let r := results (calculateResults (setMaterial Custom initialInputs)
                                     initialOutputs) in
  maxNormalStress r = zero /\ safetyFactor r = NaN.
Proof. vm_compute. split; reflexivity. Qed.

(** With the load adding no force and a zero density, both accumulators
    of the center of gravity are a zero or NaN. *)
Lemma totals_zeroOrNaN c :
  isZero (beamDensity c) = true ->
  (loadType c = "Point Load" /\ isZero (loadMagnitude c) = true)
  \/ (loadType c = "Uniform Load"
      /\ (isZero (loadMagnitude c) = true
          \/ SFeqb (loadEndPosition c) (loadStartPosition c) = true)) ->
  zeroOrNaN (fst (totals c)) = true /\ zeroOrNaN (snd (totals c)) = true.
Proof.
  intros Hd Hl.
  assert (Hw : zeroOrNaN (beamWeightN c) = true).
  { unfold beamWeightN. apply mul_zeroOrNaN_l, mul_zeroOrNaN_r.
    unfold zeroOrNaN. now rewrite Hd. }
  unfold totals.
  destruct Hl as [[Ht Hm] | [Ht Hm]]; rewrite Ht;
    cbn [String.eqb Ascii.eqb Bool.eqb fst snd].
  - assert (Hz : zeroOrNaN (loadMagnitude c) = true)
      by (unfold zeroOrNaN; now rewrite Hm).
    split; apply add_zeroOrNaN; auto using mul_zeroOrNaN_l.
  - assert (Hz : zeroOrNaN
              (loadMagnitude c
               * (loadEndPosition c / num 1000
                  - loadStartPosition c / num 1000)) = true).
    { destruct Hm as [Hm | Hm].
      - apply mul_zeroOrNaN_l. unfold zeroOrNaN. now rewrite Hm.
      - apply mul_zeroOrNaN_r. now apply sub_equal_thousandths_zeroOrNaN. }
    split; apply add_zeroOrNaN; auto using mul_zeroOrNaN_l.
Qed.

(** C10: with a zero beam density and a load of zero total force, the
    center of gravity is 0/0 and is stored as NaN; [calculateResults]
    returns its record all the same. *)
Theorem centerOfGravity_NaN c o :
  isZero (beamDensity c) = true ->
  (loadType c = "Point Load" /\ isZero (loadMagnitude c) = true)
  \/ (loadType c = "Uniform Load"
      /\ (isZero (loadMagnitude c) = true
          \/ SFeqb (loadEndPosition c) (loadStartPosition c) = true)) ->
  centerOfGravity (results (calculateResults c o)) = NaN.
Proof.
  intros Hd Hl. rewrite centerOfGravity_stored.
  destruct (totals_zeroOrNaN c Hd Hl) as [Hm Hf].
  rewrite (div_zeroOrNaN _ _ Hm Hf). reflexivity.
Qed.

Lemma centerOfGravity_NaN_witness :
  centerOfGravity
    (results (calculateResults
                (setBeamDensity (num 0)
                   (setLoadMagnitude (num 0) initialInputs))
                initialOutputs)) = NaN.
Proof.
  apply centerOfGravity_NaN.
  - reflexivity.
  - left. split; reflexivity.
Defined.

End Binary64Results.

(** ** The diagrams in binary64 *)

Section Binary64Diagrams.

Import Binary64 Binary64Facts.

Local Open Scope js_scope.

Implicit Types (c : Inputs spec_float) (o : Outputs spec_float).




End Binary64Diagrams.

(** ** Unrecognized cross-sections *)

Section Fallback.

Context {N : Type} `{JSNumber N}.

Local Open Scope js_scope.

(** C9: a cross-section name that is none of the four cases of the
    [switch] statements takes their [default] branch, which repeats the
    Rectangular formulas; everything the effect stores is what it stores
    for "Rectangular", and nothing is rejected. *)
Theorem unrecognized_shape_is_rectangular
        (s : string) (c : Inputs N) (o : Outputs N) :
  s <> "Rectangular" -> s <> "I Beam" -> s <> "C Channel" ->
  s <> "Circular" ->
  let c' := setBeamCrossSection s c in
  let widthM := width c / num 1000 in
  let heightM := height c / num 1000 in
  let momentOfInertia := (widthM * Math_pow heightM 3) / num 12 in
  beamVolume c' = widthM * heightM * (beamLength c / num 1000) /\
  sectionProperties c'
  = (widthM * heightM, momentOfInertia,
     momentOfInertia / (heightM / num 2)) /\
  useEffect c' o = useEffect (setBeamCrossSection "Rectangular" c) o.
Proof.
  intros H1 H2 H3 H4.
  apply String.eqb_neq in H1, H2, H3, H4.
  assert (Hv : beamVolume (setBeamCrossSection s c)
               = beamVolume (setBeamCrossSection "Rectangular" c)).
  { unfold beamVolume; cbn [setBeamCrossSection beamCrossSection width
      height beamLength flangeWidth flangeThickness webThickness diameter].
    now rewrite H1, H2, H3, H4. }
  assert (Hp : sectionProperties (setBeamCrossSection s c)
               = sectionProperties (setBeamCrossSection "Rectangular" c)).
  { unfold sectionProperties; cbn [setBeamCrossSection beamCrossSection
      width height flangeWidth flangeThickness webThickness diameter].
    now rewrite H1, H2, H3, H4. }
  cbv zeta. split; [|split].
  - rewrite Hv. reflexivity.
  - rewrite Hp. reflexivity.
  - assert (Ht : totals (setBeamCrossSection s c)
                 = totals (setBeamCrossSection "Rectangular" c)).
    { unfold totals, beamWeightN. rewrite Hv. reflexivity. }
    assert (Hr : calculateResults (setBeamCrossSection s c) o
                 = calculateResults (setBeamCrossSection "Rectangular" c) o).
    { unfold calculateResults, beamWeightN. rewrite Hv, Hp, Ht.
      reflexivity. }
    unfold useEffect. rewrite Hr. reflexivity.
Qed.

End Fallback.

Lemma unrecognized_shape_is_rectangular_witness :
  useEffect (N:=spec_float)
            (setBeamCrossSection "Triangular" initialInputs) initialOutputs
  = useEffect (setBeamCrossSection "Rectangular" initialInputs)
              initialOutputs.
Proof.
  apply (unrecognized_shape_is_rectangular (N:=spec_float)
           (s:="Triangular") initialInputs initialOutputs);
    discriminate.
Defined.

(** ** Statics in exact arithmetic *)

Section ExactStatics.

Local Open Scope Q_scope.

Implicit Types (c : Inputs Q) (o : Outputs Q).









End ExactStatics.

(** ** The sample positions *)

Section Sampling.

Context {N : Type} `{JSNumber N}.

Local Open Scope js_scope.

Lemma calculateDiagrams_length (c : Inputs N) (o : Outputs N) :
  List.length (shearForceData (calculateDiagrams c o)) = numPoints /\
  List.length (bendingMomentData (calculateDiagrams c o)) = numPoints.
Proof.
  unfold calculateDiagrams; cbn [shearForceData bendingMomentData].
  now rewrite !length_map, !length_seq.
Qed.

Lemma samplesAt_x (c : Inputs N) (i : nat) :
  x (fst (samplesAt c i)) = toFixed (ofNat i * dx c) 2 /\
  x (snd (samplesAt c i)) = toFixed (ofNat i * dx c) 2.
Proof.
  unfold samplesAt. destruct (shearAndMoment c (ofNat i * dx c)).
  split; reflexivity.
Qed.

Lemma moment_positions (c : Inputs N) (o : Outputs N) :
  positions (bendingMomentData (calculateDiagrams c o))
  = positions (shearForceData (calculateDiagrams c o)).
Proof.
  unfold positions, calculateDiagrams;
    cbn [shearForceData bendingMomentData].
  rewrite !map_map. apply map_ext. intro i.
  destruct (samplesAt_x c i) as [-> ->]. reflexivity.
Qed.


End Sampling.

Module ExactRounding.

Local Open Scope Q_scope.

Lemma pow10_pos (d : nat) : (0 < 10 ^ Z.of_nat d)%Z.
Proof. apply Z.pow_pos_nonneg; lia. Qed.

Lemma pow10_Qpos (d : nat) : 0 < inject_Z (10 ^ Z.of_nat d).
Proof. change 0 with (inject_Z 0). rewrite <- Zlt_Qlt. apply pow10_pos. Qed.

(** Rounding a number that is not negative. *)
Lemma toFixed_nonneg (q : Q) (d : nat) :
  0 <= q ->
  Exact.numberToFixed q d
  = Qfloor (q * inject_Z (10 ^ Z.of_nat d) + (1 # 2))
    # Z.to_pos (10 ^ Z.of_nat d).
Proof.
  intro Hq. unfold Exact.numberToFixed.
  apply Qle_bool_iff in Hq as Hb. rewrite Hb.
  now rewrite (Qabs_pos q Hq).
Qed.


Lemma Qmake_le (n n' : Z) (p : positive) :
  (n <= n')%Z -> n # p <= n' # p.
Proof. intro Hn. unfold Qle; simpl. nia. Qed.


Lemma toFixed_mono (q q' : Q) (d : nat) :
  0 <= q -> q <= q' -> Exact.numberToFixed q d <= Exact.numberToFixed q' d.
Proof.
  intros Hq Hle.
  rewrite !toFixed_nonneg by lra.
  apply Qmake_le, Qfloor_resp_le.
  pose proof (pow10_Qpos d) as Hp.
  set (p := inject_Z (10 ^ Z.of_nat d)) in *. clearbody p.
  assert (q * p <= q' * p) by (apply Qmult_le_compat_r; lra).
  lra.
Qed.



End ExactRounding.

Section ExactSampling.

Import ExactRounding.

Local Open Scope Q_scope.

Implicit Types (c : Inputs Q) (o : Outputs Q).








End ExactSampling.

(** * Further properties *)

(** ** What the results depend on *)

Section ResultDependencies.

Context {N : Type} `{JSNumber N}.

Local Open Scope js_scope.

(** The two [switch] statements of [calculateResults] agree: for every
    cross-section name, recognized or not, the volume used for the weight
    is the area used for the shear stress times the length in metres, so
    the stored weight is area x length x density x 9.81, rounded. *)
Theorem volume_is_area_times_length (c : Inputs N) (o : Outputs N) :
  beamVolume c = area c * (beamLength c / num 1000) /\
  beamWeight (calculateResults c o)
  = toFixed (area c * (beamLength c / num 1000) * beamDensity c * num 9.81) 2.
Proof.
  assert (Hv : beamVolume c = area c * (beamLength c / num 1000)).
  { unfold beamVolume, area, sectionProperties.
    destruct (beamCrossSection c =? "Rectangular"); [reflexivity|].
    destruct (beamCrossSection c =? "I Beam"); [reflexivity|].
    destruct (beamCrossSection c =? "C Channel"); [reflexivity|].
    destruct (beamCrossSection c =? "Circular"); reflexivity. }
  split; [exact Hv|].
  rewrite <- Hv. unfold calculateResults.
  destruct (totals c), (sectionProperties c) as [[? ?] ?]. reflexivity.
Qed.

(** [calculateResults] lists the beam type and the two support positions
    among its dependencies and never reads them: the stored results and
    weight are the same whatever they are. *)
Theorem results_ignore_supports
        (c : Inputs N) (o : Outputs N) (t : string) (l r : N) :
  let c' := setBeamType t (setLeftSupport l (setRightSupport r c)) in
  results (calculateResults c' o) = results (calculateResults c o) /\
  beamWeight (calculateResults c' o) = beamWeight (calculateResults c o).
Proof. split; reflexivity. Qed.

End ResultDependencies.

(** ** The beam drawing *)

Section BeamDiagramExact.

Import BeamDiagram.

Local Open Scope Q_scope.

Implicit Types p : Props Q.

(** A position between the ends of the beam is drawn between the ends of
    the beam line. *)
Lemma on_beam_line (pos L : Q) :
  0 < L -> 0 <= pos <= L ->
  40 <= 40 + pos / L * (500 - 2 * 40) <= 460.
Proof.
  intros HL [H0 H1].
  assert (0 <= pos / L) by (apply Qle_shift_div_l; lra).
  assert (pos / L <= 1) by (apply Qle_shift_div_r; lra).
  lra.
Qed.

Lemma drawn_in_order (a b L : Q) :
  0 < L -> a < b ->
  40 + a / L * (500 - 2 * 40) < 40 + b / L * (500 - 2 * 40).
Proof.
  intros HL Hab.
  assert (a / L < b / L).
  { unfold Qdiv. apply Qmult_lt_compat_r; [|exact Hab].
    apply Qinv_lt_0_compat; exact HL. }
  lra.
Qed.

(** Supports and load ends that lie on the beam are drawn on the beam
    line, between x = 40 and x = 460. *)
Theorem coordinates_on_beam_line p :
  0 < beamLength p ->
  0 <= leftSupport p <= beamLength p ->
  0 <= rightSupport p <= beamLength p ->
  0 <= loadStartPosition p <= beamLength p ->
  0 <= loadEndPosition p <= beamLength p ->
  40 <= leftSupportX p <= 460 /\ 40 <= rightSupportX p <= 460 /\
  40 <= loadStartX p <= 460 /\ 40 <= loadEndX p <= 460.
Proof.
  intros HL Hl Hr Hs He.
  repeat split; now apply on_beam_line.
Qed.

(** The drawing keeps the order of positions along the beam, and the two
    ends of the beam are drawn at the two ends of the beam line. *)
Theorem drawing_keeps_order p :
  0 < beamLength p ->
  (leftSupport p < rightSupport p -> leftSupportX p < rightSupportX p) /\
  (loadStartPosition p < loadEndPosition p -> loadStartX p < loadEndX p) /\
  (leftSupport p == 0 -> leftSupportX p == 40) /\
  (rightSupport p == beamLength p -> rightSupportX p == 460).
Proof.
  intro HL. split; [|split; [|split]].
  - now apply drawn_in_order.
  - now apply drawn_in_order.
  - intro E. unfold leftSupportX.
    cbv [margin svgWidth num add sub mul div Exact.number].
    rewrite E. field. lra.
  - intro E. unfold rightSupportX.
    cbv [margin svgWidth num add sub mul div Exact.number].
    rewrite E. field. lra.
Qed.

(** A load that is not a point load is drawn with five arrows, evenly
    spaced from the start of the load to its end; the magnitude label is
    centred on the middle arrow. *)
Theorem uniform_load_arrows p :
  0 < beamLength p ->
  loadType p <> "Point Load" ->
  let xs := loadArrows p in
  List.length xs = 5%nat /\
  nth 0 xs 0 == loadStartX p /\
  nth 4 xs 0 == loadEndX p /\
  nth 2 xs 0 == labelX p /\
  (forall i : nat, (i < 4)%nat ->
     nth (S i) xs 0 - nth i xs 0 == (loadEndX p - loadStartX p) / 4).
Proof.
  intros _ Ht. apply String.eqb_neq in Ht.
  unfold loadArrows. rewrite Ht. cbv zeta.
  cbn [seq map List.length nth].
  unfold arrowX, labelX, ofNat.
  cbv [num add sub mul div Exact.number].
  split; [reflexivity|].
  split; [cbn [Z.of_nat inject_Z]; ring|].
  split; [change (inject_Z (Z.of_nat 4)) with 4; field|].
  split; [change (inject_Z (Z.of_nat 2)) with 2; field|].
  intros i Hi.
  destruct i as [|[|[|[|i]]]]; [| | | | lia];
    cbn [nth Z.of_nat Pos.of_succ_nat Pos.succ inject_Z];
    field.
Qed.

(** The drawing of a load from 500 to 800 mm on the initial beam. *)
Lemma uniform_load_arrows_witness :
  let p := beamDiagramProps
             (setLoadType "Uniform Load"
                (setLoadEndPosition 800 (initialInputs (N:=Q)))) in
  nth 0 (loadArrows p) 0 == 250 /\ nth 4 (loadArrows p) 0 == 376 /\
  nth 2 (loadArrows p) 0 == labelX p.
Proof.
  destruct (uniform_load_arrows
              (beamDiagramProps
                 (setLoadType "Uniform Load"
                    (setLoadEndPosition 800 (initialInputs (N:=Q))))))
    as (_ & H0 & H4 & H2 & _).
  - reflexivity.
  - discriminate.
  - split; [|split].
    + apply (Qeq_trans _ _ _ H0). reflexivity.
    + apply (Qeq_trans _ _ _ H4). reflexivity.
    + exact H2.
Defined.

Lemma drawing_keeps_order_witness :
  let p := beamDiagramProps (initialInputs (N:=Q)) in
  leftSupportX p < rightSupportX p /\
  leftSupportX p == 40 /\ rightSupportX p == 460.
Proof.
  destruct (drawing_keeps_order (beamDiagramProps (initialInputs (N:=Q))))
    as (H1 & _ & H3 & H4).
  - reflexivity.
  - split; [|split].
    + apply H1. reflexivity.
    + apply H3. reflexivity.
    + apply H4. reflexivity.
Defined.

Lemma coordinates_on_beam_line_witness :
  let p := beamDiagramProps (initialInputs (N:=Q)) in
  40 <= loadStartX p <= 460.
Proof.
  apply (coordinates_on_beam_line (beamDiagramProps (initialInputs (N:=Q))));
    try reflexivity; split; discriminate.
Defined.

End BeamDiagramExact.

Section BeamDiagramBinary64.

Import Binary64 Binary64Facts BeamDiagram.

Local Open Scope js_scope.

Implicit Types p : Props spec_float.

Lemma drawn_not_finite (pos L : spec_float) :
  isZero L = true ->
  isFinite (margin + (pos / L) * (svgWidth - num 2 * margin)) = false.
Proof.
  intro HL. destruct L as [b| | |]; try discriminate.
  destruct pos as [[]|[]| |[] m e], b; reflexivity.
Qed.

Lemma add_not_finite_l (a b : spec_float) :
  isFinite a = false -> isFinite (a + b) = false.
Proof.
  destruct a as [|[]| |], b as [|[]| |]; simpl; trivial; discriminate.
Qed.

(** With a beam length of 0 (an emptied length field) every position is
    divided by zero: no support, load end or arrow of the drawing has a
    finite coordinate. *)
Theorem zero_length_drawing p :
  isZero (beamLength p) = true ->
  isFinite (leftSupportX p) = false /\
  isFinite (rightSupportX p) = false /\
  isFinite (loadStartX p) = false /\
  isFinite (loadEndX p) = false /\
  forallb (fun x => negb (isFinite x)) (loadArrows p) = true.
Proof.
  intro HL.
  assert (Hs : isFinite (loadStartX p) = false)
    by now apply drawn_not_finite.
  repeat split; try now apply drawn_not_finite.
  unfold loadArrows. destruct (loadType p =? "Point Load").
  - cbn [forallb]. now rewrite Hs.
  - cbn [seq map forallb]. unfold arrowX.
    now rewrite !add_not_finite_l by exact Hs.
Qed.

Lemma zero_length_drawing_witness :
  let p := beamDiagramProps (setBeamLength (num 0) initialInputs) in
  isFinite (leftSupportX p) = false /\
  isFinite (rightSupportX p) = false /\
  isFinite (loadStartX p) = false /\
  isFinite (loadEndX p) = false /\
  forallb (fun x => negb (isFinite x)) (loadArrows p) = true.
Proof.
  apply zero_length_drawing. reflexivity.
Defined.

End BeamDiagramBinary64.

(** ** Shear force and bending moment in exact arithmetic *)

Module ExactCases.

Local Open Scope Q_scope.

Lemma Qle_bool_false (a b : Q) : Qle_bool a b = false -> b < a.
Proof.
  intro H. apply Qnot_le_lt. intro L.
  apply Qle_bool_iff in L. congruence.
Qed.

(** Decide every comparison of the goal, dropping the cases the
    hypotheses exclude. *)
Ltac qtests :=
  repeat match goal with
  | |- context [Qle_bool ?a ?b] =>
    let E := fresh "E" in
    destruct (Qle_bool a b) eqn:E;
    [apply Qle_bool_iff in E | apply Qle_bool_false in E];
    cbn [negb andb]; try (exfalso; lra)
  end.

(** Decide every [Math.min] of the goal. *)
Ltac qmins :=
  repeat match goal with
  | |- context [Qmin ?a ?b] =>
    let Hm := fresh "Hm" in
    let Em := fresh "Em" in
    destruct (Q.min_spec a b) as [[Hm Em] | [Hm Em]];
    rewrite Em; clear Em
  end.

(** Unfold the loop body at a beam type and a load type. *)
Ltac at_beam Hb Hl :=
  unfold shearAndMoment, reactions; rewrite Hb, Hl;
  cbn [String.eqb Ascii.eqb Bool.eqb andb fst snd];
  cbv [num add sub mul div neg ltb leb Math_min Exact.number];
  cbn [fst snd].

End ExactCases.

Section SampleValues.

Context {N : Type} `{JSNumber N}.

Local Open Scope js_scope.

(** The stored values of sample [i]: the shear force and the bending
    moment at its unrounded position, each rounded to two decimals. *)
Lemma nth_shear (c : Inputs N) (o : Outputs N) (i : nat) (d : N) :
  (i < numPoints)%nat ->
  nth i (map (@y N) (shearForceData (calculateDiagrams c o))) d
  = toFixed (fst (shearAndMoment c (ofNat i * dx c))) 2.
Proof.
  intro Hi. unfold calculateDiagrams; cbn [shearForceData].
  rewrite map_map.
  rewrite (nth_indep _ d (y (fst (samplesAt c 0))))
    by now rewrite length_map, length_seq.
  rewrite (map_nth (fun i => y (fst (samplesAt c i)))).
  rewrite seq_nth by exact Hi.
  cbn [Nat.add]. unfold samplesAt.
  now destruct (shearAndMoment c (ofNat i * dx c)).
Qed.

Lemma nth_moment (c : Inputs N) (o : Outputs N) (i : nat) (d : N) :
  (i < numPoints)%nat ->
  nth i (map (@y N) (bendingMomentData (calculateDiagrams c o))) d
  = toFixed (snd (shearAndMoment c (ofNat i * dx c))) 2.
Proof.
  intro Hi. unfold calculateDiagrams; cbn [bendingMomentData].
  rewrite map_map.
  rewrite (nth_indep _ d (y (snd (samplesAt c 0))))
    by now rewrite length_map, length_seq.
  rewrite (map_nth (fun i => y (snd (samplesAt c i)))).
  rewrite seq_nth by exact Hi.
  cbn [Nat.add]. unfold samplesAt.
  now destruct (shearAndMoment c (ofNat i * dx c)).
Qed.

End SampleValues.

Section SimpleBeamPointLoad.

Import ExactCases.

Local Open Scope Q_scope.

Variable c : Inputs Q.
Hypothesis Hb : beamType c = "Simple Beam".
Hypothesis Hl : loadType c = "Point Load".
Hypothesis Hspan : leftSupport c < rightSupport c.
Hypothesis Hload :
  leftSupport c <= loadStartPosition c <= rightSupport c.

Let R1 := fst (reactions c).
Let R2 := snd (reactions c).
Let P := loadMagnitude c.

(** A point load between the supports is shared between them: each
    reaction is between 0 and the load, and a load that stands on a support
    is carried by that support alone. *)
Theorem point_load_reactions_share :
  (0 <= P -> 0 <= R1 <= P /\ 0 <= R2 <= P) /\
  (loadStartPosition c == leftSupport c -> R1 == P /\ R2 == 0) /\
  (loadStartPosition c == rightSupport c -> R1 == 0 /\ R2 == P).
Proof.
  unfold R1, R2, P. at_beam Hb Hl.
  destruct Hload as [Ha Hb'].
  set (ls := leftSupport c) in *. set (rs := rightSupport c) in *.
  set (lp := loadStartPosition c) in *. set (F := loadMagnitude c).
  assert (HD : 0 < rs - ls) by lra.
  split; [|split].
  - intro HP. repeat split.
    + apply Qle_shift_div_l; [exact HD|]. nra.
    + apply Qle_shift_div_r; [exact HD|]. nra.
    + apply Qle_shift_div_l; [exact HD|]. nra.
    + apply Qle_shift_div_r; [exact HD|]. nra.
  - intro E. rewrite E. split; field; lra.
  - intro E. rewrite E. split; field; lra.
Qed.

(** The shear force along the beam: nothing left of the left support, the
    left reaction up to the load, minus the right reaction from the load to
    the right support; from the right support on the code subtracts the
    right reaction once more, so the diagram ends at minus twice the right
    reaction instead of closing at 0. *)
Theorem point_load_shear_pieces (x : Q) :
  let shear := fst (shearAndMoment c x) in
  (x < leftSupport c -> shear == 0) /\
  (leftSupport c <= x < loadStartPosition c -> shear == R1) /\
  (loadStartPosition c <= x < rightSupport c -> shear == - R2) /\
  (rightSupport c <= x -> shear == - (2 * R2)).
Proof.
  unfold R1, R2. at_beam Hb Hl.
  destruct Hload as [Ha Hb'].
  set (ls := leftSupport c) in *. set (rs := rightSupport c) in *.
  set (lp := loadStartPosition c) in *. set (F := loadMagnitude c).
  assert (HD : 0 < rs - ls) by lra.
  repeat split; intros; qtests; field; lra.
Qed.

(** The bending moment along the beam: it grows with slope R1 up to the
    load and falls with slope R2 to 0 at the right support; it is 0 at the
    left support, but it is not held at 0 outside the supports, where it is
    negative for a downward load. *)
Theorem point_load_moment_pieces (x : Q) :
  let moment := snd (shearAndMoment c x) in
  (x <= loadStartPosition c -> moment == R1 * (x - leftSupport c)) /\
  (loadStartPosition c < x <= rightSupport c ->
   moment == R2 * (rightSupport c - x)) /\
  (rightSupport c < x -> moment == 2 * R2 * (rightSupport c - x)) /\
  (x == leftSupport c \/ x == rightSupport c -> moment == 0).
Proof.
  unfold R1, R2. at_beam Hb Hl.
  destruct Hload as [Ha Hb'].
  set (ls := leftSupport c) in *. set (rs := rightSupport c) in *.
  set (lp := loadStartPosition c) in *. set (F := loadMagnitude c).
  assert (HD : 0 < rs - ls) by lra.
  split; [|split; [|split]].
  - intros H. qtests; field; lra.
  - intros [H1 H2]. qtests; field; lra.
  - intros H. qtests; field; lra.
  - intros [Hx | Hx]; qtests;
      first [ rewrite Hx; field; lra
            | assert (Hlp : lp == rs) by lra; rewrite Hx, Hlp; field; lra ].
Qed.

(** Between the supports the bending moment is between 0 and its value
    under the load, P a b / L for a load at distance a from one support
    and b from the other, L apart. *)
Lemma point_load_moment_between_supports (x : Q) :
  0 <= P -> leftSupport c <= x <= rightSupport c ->
  0 <= snd (shearAndMoment c x)
    <= P * (rightSupport c - loadStartPosition c)
         * (loadStartPosition c - leftSupport c)
         / (rightSupport c - leftSupport c).
Proof.
  unfold P. intros HP [Hx1 Hx2]. at_beam Hb Hl.
  destruct Hload as [Ha Hb'].
  set (ls := leftSupport c) in *. set (rs := rightSupport c) in *.
  set (lp := loadStartPosition c) in *. set (F := loadMagnitude c) in *.
  assert (HD : 0 < rs - ls) by lra.
  assert (Hk : 0 <= F / (rs - ls)) by (apply Qle_shift_div_l; lra).
  assert (Epeak : F * (rs - lp) * (lp - ls) / (rs - ls)
                  == F / (rs - ls) * ((rs - lp) * (lp - ls)))
    by (field; lra).
  rewrite Epeak.
  qtests.
  - assert (E1 : F * (rs - lp) / (rs - ls) * (x - ls)
                 == F / (rs - ls) * ((rs - lp) * (x - ls)))
      by (field; lra).
    rewrite E1. set (k := F / (rs - ls)) in *.
    assert (0 <= (rs - lp) * (x - ls)) by nra.
    assert ((rs - lp) * (x - ls) <= (rs - lp) * (lp - ls)) by nra.
    split; nra.
  - assert (E1 : F * (rs - lp) / (rs - ls) * (x - ls) - F * (x - lp)
                 == F / (rs - ls) * ((lp - ls) * (rs - x)))
      by (field; lra).
    rewrite E1. set (k := F / (rs - ls)) in *.
    assert (0 <= (lp - ls) * (rs - x)) by nra.
    assert ((lp - ls) * (rs - x) <= (rs - lp) * (lp - ls)) by nra.
    split; nra.
Qed.

(** Every stored bending-moment sample taken between the supports lies
    between 0 and P a b / L rounded to two decimals, the value the moment
    has under the load. *)
Theorem stored_moments_bounded (o : Outputs Q) (i : nat) :
  0 <= P -> (i < 100)%nat ->
  leftSupport c <= ofNat i * dx c <= rightSupport c ->
  0 <= nth i (map (@y Q) (bendingMomentData (calculateDiagrams c o))) 0
    <= toFixed (P * (rightSupport c - loadStartPosition c)
                  * (loadStartPosition c - leftSupport c)
                  / (rightSupport c - leftSupport c)) 2.
Proof.
  intros HP Hi Hx.
  rewrite nth_moment by exact Hi.
  destruct (point_load_moment_between_supports HP Hx) as [H0 H1].
  split.
  - apply Qle_trans with (Exact.numberToFixed 0 2); [discriminate|].
    apply ExactRounding.toFixed_mono; [lra | exact H0].
  - apply ExactRounding.toFixed_mono; assumption.
Qed.

End SimpleBeamPointLoad.

Section SimpleBeamUniformLoad.

Import ExactCases.

Local Open Scope Q_scope.

Variable c : Inputs Q.
Hypothesis Hb : beamType c = "Simple Beam".
Hypothesis Hl : loadType c = "Uniform Load".
Hypothesis Hspan : leftSupport c < rightSupport c.
Hypothesis Hstart : leftSupport c <= loadStartPosition c.
Hypothesis Hlen : loadStartPosition c < loadEndPosition c.
Hypothesis Hend : loadEndPosition c <= rightSupport c.

Let R1 := fst (reactions c).
Let R2 := snd (reactions c).
Let w := loadMagnitude c.

(** Under a uniform load between the supports the shear force is the left
    reaction up to the load, falls linearly along the load to minus the
    right reaction, and stays there up to the right support; from the
    right support on it is minus twice the right reaction. *)
Theorem uniform_load_shear_pieces (x : Q) :
  let shear := fst (shearAndMoment c x) in
  (x < leftSupport c -> shear == 0) /\
  (leftSupport c <= x < loadStartPosition c -> shear == R1) /\
  (loadStartPosition c <= x < loadEndPosition c ->
   shear == R1 - w * (x - loadStartPosition c)) /\
  (loadEndPosition c <= x < rightSupport c -> shear == - R2) /\
  (rightSupport c <= x -> shear == - (2 * R2)).
Proof.
  unfold R1, R2, w. at_beam Hb Hl.
  set (ls := leftSupport c) in *. set (rs := rightSupport c) in *.
  set (s := loadStartPosition c) in *. set (e := loadEndPosition c) in *.
  set (F := loadMagnitude c).
  assert (HD : 0 < rs - ls) by lra.
  split; [|split; [|split; [|split]]].
  - intros H. qtests; field; lra.
  - intros [H1 H2]. qtests; field; lra.
  - intros [H1 H2]. qtests; qmins; try (exfalso; lra); field; lra.
  - intros [H1 H2]. qtests; qmins; try (exfalso; lra); field; lra.
  - intros H. qtests; qmins; try (exfalso; lra); field; lra.
Qed.

(** Under a uniform load between the supports the bending moment is
    linear up to the load, a parabola along it, linear again down to 0 at
    the right support; it is 0 at both supports. *)
Theorem uniform_load_moment_pieces (x : Q) :
  let moment := snd (shearAndMoment c x) in
  (x <= loadStartPosition c -> moment == R1 * (x - leftSupport c)) /\
  (loadStartPosition c < x < loadEndPosition c ->
   moment == R1 * (x - leftSupport c)
             - w * (x - loadStartPosition c) * (x - loadStartPosition c) / 2)
  /\
  (loadEndPosition c <= x <= rightSupport c ->
   moment == R2 * (rightSupport c - x)) /\
  (x == leftSupport c \/ x == rightSupport c -> moment == 0).
Proof.
  cbv zeta.
  assert (P1 : x <= loadStartPosition c ->
               snd (shearAndMoment c x) == R1 * (x - leftSupport c)).
  { unfold R1. at_beam Hb Hl. intros H. qtests; field; lra. }
  assert (P3 : loadEndPosition c <= x <= rightSupport c ->
               snd (shearAndMoment c x) == R2 * (rightSupport c - x)).
  { unfold R2. at_beam Hb Hl. intros [H1 H2].
    qtests; qmins; try (exfalso; lra); field; lra. }
  split; [exact P1|split; [|split; [exact P3|]]].
  - unfold R1, w. at_beam Hb Hl. intros [H1 H2].
    qtests; qmins; try (exfalso; lra); field; lra.
  - intros [Hx | Hx].
    + rewrite P1 by lra. rewrite Hx. ring.
    + rewrite P3 by lra. rewrite Hx. ring.
Qed.

End SimpleBeamUniformLoad.

Section CantileverBeam.

Import ExactCases.

Local Open Scope Q_scope.

Variable c : Inputs Q.
Hypothesis Hb : beamType c = "Cantilever Beam".

(** On a cantilever with a downward load that lies on the beam, no sample
    of the shear force or of the bending moment is positive. *)
Theorem cantilever_never_positive (x : Q) :
  0 <= loadMagnitude c ->
  (loadType c = "Point Load" /\ loadStartPosition c <= beamLength c)
  \/ (loadType c = "Uniform Load"
      /\ loadStartPosition c <= loadEndPosition c <= beamLength c) ->
  fst (shearAndMoment c x) <= 0 /\ snd (shearAndMoment c x) <= 0.
Proof.
  intros HP [[Hl Hpos] | [Hl [Hse HeL]]]; at_beam Hb Hl.
  - set (F := loadMagnitude c) in *.
    qtests; cbn [fst snd]; split; try lra.
    assert (HB : 0 <= beamLength c - loadStartPosition c) by lra.
    pose proof (Qmult_le_0_compat _ _ HP HB) as HAB.
    assert (E1 : - F * (beamLength c - loadStartPosition c)
                 == - (F * (beamLength c - loadStartPosition c))) by ring.
    rewrite E1. lra.
  - set (F := loadMagnitude c) in *. set (s := loadStartPosition c) in *.
    set (e := loadEndPosition c) in *. set (L := beamLength c) in *.
    qtests; cbn [fst snd]; split; try lra.
    + assert (HA : 0 <= F * (e - s)) by (apply Qmult_le_0_compat; lra).
      assert (E1 : - F * (e - s) == - (F * (e - s))) by ring.
      rewrite E1. lra.
    + assert (HA : 0 <= F * (e - s)) by (apply Qmult_le_0_compat; lra).
      assert (Eh : (s + e) / 2 == (s + e) * (1 # 2)) by field.
      assert (HB : 0 <= L - (s + e) / 2) by (rewrite Eh; lra).
      pose proof (Qmult_le_0_compat _ _ HA HB) as HAB.
      assert (E1 : - F * (e - s) * (L - (s + e) / 2)
                   == - (F * (e - s) * (L - (s + e) / 2))) by ring.
      rewrite E1. lra.
    + assert (HA : 0 <= F * (e - x)) by (apply Qmult_le_0_compat; lra).
      assert (E1 : - F * (e - x) == - (F * (e - x))) by ring.
      rewrite E1. lra.
    + assert (HA : 0 <= F * (e - x)) by (apply Qmult_le_0_compat; lra).
      assert (HB : 0 <= e - x) by lra.
      pose proof (Qmult_le_0_compat _ _ HA HB) as HAB.
      assert (E1 : - F * (e - x) * (e - x) / 2
                   == - (F * (e - x) * (e - x)) * (1 # 2)) by field.
      rewrite E1. lra.
Qed.

(** A uniform load over the whole cantilever gives the textbook diagrams:
    at distance x from the fixed end the shear force is -w (L - x) and the
    bending moment -w (L - x)^2 / 2, so the moment at the fixed end is
    -w L^2 / 2 and both vanish at the free end. *)
Theorem cantilever_full_uniform_load (x : Q) :
  loadType c = "Uniform Load" ->
  loadStartPosition c == 0 -> loadEndPosition c == beamLength c ->
  0 <= x <= beamLength c ->
  fst (shearAndMoment c x) == - loadMagnitude c * (beamLength c - x) /\
  snd (shearAndMoment c x)
  == - loadMagnitude c * (beamLength c - x) * (beamLength c - x) / 2.
Proof.
  intros Hl Hs He [Hx0 HxL]. at_beam Hb Hl.
  qtests; cbn [fst snd];
    first [ assert (Ex : x == 0) by lra;
            rewrite Hs, He, Ex; split; field
          | assert (Ex : x == beamLength c) by lra;
            rewrite Ex; split; field
          | rewrite He; split; reflexivity ].
Qed.

End CantileverBeam.

(** ** Center of gravity and section properties in exact arithmetic *)

Module ExactPositivity.

Local Open Scope Q_scope.

Lemma Qadd_pos (a b : Q) : 0 < a -> 0 < b -> 0 < a + b.
Proof. intros; lra. Qed.

Lemma PI_pos : 0 < Exact.PI.
Proof. reflexivity. Qed.

(** Positivity of a product, quotient or sum of positive numbers. *)
Ltac qpos :=
  match goal with
  | |- 0 < Exact.PI => exact PI_pos
  | |- 0 < _ * _ => apply Qmult_lt_0_compat; qpos
  | |- 0 < _ / _ => apply Qlt_shift_div_l; [qpos | rewrite Qmult_0_l; qpos]
  | |- 0 < _ + _ => apply Qadd_pos; qpos
  | _ => lra
  end.

Lemma thousandth_pos (a : Q) : 0 < a -> 0 < a / 1000.
Proof. intro; qpos. Qed.


End ExactPositivity.

Section ExactResults.

Import ExactPositivity.

Local Open Scope Q_scope.

Implicit Types (c : Inputs Q) (o : Outputs Q).



(** For every cross-section with valid dimensions the area, the moment of
    inertia and the section modulus are strictly positive, and so is the
    volume of a beam of positive length. *)
Theorem section_properties_positive c :
  validGeometry c ->
  0 < area c /\ 0 < rawMomentOfInertia c /\ 0 < rawSectionModulus c /\
  (0 < beamLength c -> 0 < beamVolume c).
Proof.
  unfold validGeometry, area, rawMomentOfInertia, rawSectionModulus,
    beamVolume, sectionProperties.
  assert (Hweb : forall h t : Q, 2 * t < h -> 0 < h / 1000 - 2 * (t / 1000)).
  { intros h t Ht.
    assert (E : h / 1000 - 2 * (t / 1000) == (h - 2 * t) / 1000) by field.
    rewrite E. qpos. }
  destruct (String.eqb_spec (beamCrossSection c) "Rectangular") as [E | _];
    [rewrite E; cbn [String.eqb Ascii.eqb Bool.eqb orb] |].
  { intros [Hw Hh]. apply thousandth_pos in Hw, Hh.
    cbv [num add sub mul div Math_pow Exact.pow Exact.number fst snd].
    set (wM := width c / 1000) in *. set (hM := height c / 1000) in *.
    repeat split; try intro HL; try apply thousandth_pos in HL; qpos. }
  destruct (String.eqb_spec (beamCrossSection c) "I Beam") as [E | _];
    [rewrite E; cbn [String.eqb Ascii.eqb Bool.eqb orb] |].
  { intros (Hbf & Htf & Htw & Hh). apply Hweb in Hh.
    apply thousandth_pos in Hbf, Htf, Htw.
    cbv [num add sub mul div Math_pow Exact.pow Exact.number fst snd].
    set (bf := flangeWidth c / 1000) in *.
    set (tf := flangeThickness c / 1000) in *.
    set (tw := webThickness c / 1000) in *.
    set (h := height c / 1000) in *.
    repeat split; try intro HL; try apply thousandth_pos in HL; qpos. }
  destruct (String.eqb_spec (beamCrossSection c) "C Channel") as [E | _];
    [rewrite E; cbn [String.eqb Ascii.eqb Bool.eqb orb] |].
  { intros (Hbf & Htf & Htw & Hh). apply Hweb in Hh.
    apply thousandth_pos in Hbf, Htf, Htw.
    cbv [num add sub mul div Math_pow Exact.pow Exact.number fst snd].
    set (bf := flangeWidth c / 1000) in *.
    set (tf := flangeThickness c / 1000) in *.
    set (tw := webThickness c / 1000) in *.
    set (h := height c / 1000) in *.
    repeat split; try intro HL; try apply thousandth_pos in HL; qpos. }
  cbn [orb].
  destruct (String.eqb_spec (beamCrossSection c) "Circular") as [E | _].
  { intros Hd. apply thousandth_pos in Hd.
    cbv [num add sub mul div Math_pow Math_PI Exact.pow Exact.number
         fst snd].
    set (d := diameter c / 1000) in *.
    repeat split; try intro HL; try apply thousandth_pos in HL; qpos. }
  intros [Hw Hh]. apply thousandth_pos in Hw, Hh.
  cbv [num add sub mul div Math_pow Exact.pow Exact.number fst snd].
  set (wM := width c / 1000) in *. set (hM := height c / 1000) in *.
  repeat split; try intro HL; try apply thousandth_pos in HL; qpos.
Qed.

(** The rectangular section: the section modulus is w h^2 / 6, and the
    moment of inertia grows with the cube of the height at a fixed width. *)
Theorem rectangular_closed_forms c (k : Q) :
  beamCrossSection c = "Rectangular" -> 0 < height c ->
  let wM := width c / 1000 in
  let hM := height c / 1000 in
  area c == wM * hM /\
  rawMomentOfInertia c == wM * hM ^ 3 / 12 /\
  rawSectionModulus c == wM * hM ^ 2 / 6 /\
  rawMomentOfInertia (setHeight (k * height c) c)
  == k ^ 3 * rawMomentOfInertia c.
Proof.
  intros Hs Hh.
  unfold area, rawMomentOfInertia, rawSectionModulus, sectionProperties.
  cbn [setHeight beamCrossSection width height].
  rewrite Hs. cbn [String.eqb Ascii.eqb Bool.eqb fst snd].
  cbv [num add sub mul div Math_pow Exact.pow Exact.number].
  repeat split; field; lra.
Qed.

(** The circular section: area pi d^2 / 4, moment of inertia pi d^4 / 64,
    section modulus pi d^3 / 32, with pi the value of [Math.PI]. *)
Theorem circular_closed_forms c :
  beamCrossSection c = "Circular" -> 0 < diameter c ->
  let d := diameter c / 1000 in
  area c == Exact.PI * d ^ 2 / 4 /\
  rawMomentOfInertia c == Exact.PI * d ^ 4 / 64 /\
  rawSectionModulus c == Exact.PI * d ^ 3 / 32 /\
  rawMomentOfInertia c == area c * d ^ 2 / 16.
Proof.
  intros Hs Hd.
  unfold area, rawMomentOfInertia, rawSectionModulus, sectionProperties.
  rewrite Hs. cbn [String.eqb Ascii.eqb Bool.eqb fst snd].
  cbv [num add sub mul div Math_pow Math_PI Exact.pow Exact.number].
  repeat split; field; lra.
Qed.

(** An I-beam and a channel of the same dimensions get the same area and
    volume, but the I-beam branch counts the flanges twice over: its
    moment of inertia less the web's share is twice the channel's. *)
Theorem IBeam_doubles_channel_flanges c :
  let cI := setBeamCrossSection "I Beam" c in
  let cC := setBeamCrossSection "C Channel" c in
  let web := webThickness c / 1000
             * (height c / 1000 - 2 * (flangeThickness c / 1000)) ^ 3
             / 12 in
  area cI = area cC /\ beamVolume cI = beamVolume cC /\
  rawMomentOfInertia cI - web == 2 * (rawMomentOfInertia cC - web).
Proof.
  cbv zeta. split; [reflexivity | split; [reflexivity|]].
  unfold rawMomentOfInertia, sectionProperties.
  cbn [setBeamCrossSection beamCrossSection width height flangeWidth
       flangeThickness webThickness diameter
       String.eqb Ascii.eqb Bool.eqb fst snd].
  cbv [num add sub mul div Math_pow Exact.pow Exact.number].
  field.
Qed.

End ExactResults.

(** ** Unrecognized beam and load types *)

Section FlatDiagrams.

Context {N : Type} `{JSNumber N}.

Local Open Scope js_scope.

(** A beam type that is neither of the two recognized ones, or a
    cantilever with an unrecognized load type, is not rejected: the
    reactions are 0 and every sample of both series stores the rounded
    constant 0. *)
Theorem unrecognized_beam_type_is_flat
        (c : Inputs N) (o : Outputs N) (i : nat) (d : N) :
  (beamType c <> "Simple Beam" /\ beamType c <> "Cantilever Beam")
  \/ (beamType c = "Cantilever Beam"
      /\ loadType c <> "Point Load" /\ loadType c <> "Uniform Load") ->
  (i < numPoints)%nat ->
  reactions c = (num 0, num 0) /\
  nth i (map (@y N) (shearForceData (calculateDiagrams c o))) d
  = toFixed (num 0) 2 /\
  nth i (map (@y N) (bendingMomentData (calculateDiagrams c o))) d
  = toFixed (num 0) 2.
Proof.
  intros Hc Hi.
  rewrite nth_shear, nth_moment by exact Hi.
  unfold shearAndMoment, reactions.
  destruct Hc as [[H1 H2] | [Hb [H1 H2]]].
  - apply String.eqb_neq in H1, H2. rewrite H1, H2. repeat split.
  - apply String.eqb_neq in H1, H2. rewrite Hb, H1, H2.
    cbn [String.eqb Ascii.eqb Bool.eqb]. repeat split.
Qed.

End FlatDiagrams.

(** ** The theorems above at concrete configurations *)

Section Witnesses.

Local Open Scope Q_scope.

(** The initial beam, and the same beam under 1 N/mm from 200 to 800 mm. *)
Let c0 : Inputs Q := initialInputs.
Let cU : Inputs Q :=
  setLoadType "Uniform Load"
    (setLoadMagnitude 1
       (setLoadStartPosition 200 (setLoadEndPosition 800 initialInputs))).

(** A cantilever under 10 N/mm over its whole length of 1000 mm. *)
Let cK : Inputs Q :=
  setBeamType "Cantilever Beam"
    (setLoadType "Uniform Load"
       (setLoadMagnitude 10
          (setLoadStartPosition 0 (setLoadEndPosition 1000 initialInputs)))).

Lemma point_load_reactions_share_witness :
  0 <= fst (reactions c0) <= loadMagnitude c0.
Proof.
  assert (Hspan : leftSupport c0 < rightSupport c0) by reflexivity.
  assert (Hload : leftSupport c0 <= loadStartPosition c0 <= rightSupport c0)
    by (split; discriminate).
  destruct (point_load_reactions_share c0 eq_refl eq_refl Hspan Hload)
    as [H _].
  apply H. discriminate.
Defined.

Lemma point_load_shear_pieces_witness :
  fst (shearAndMoment c0 250) == fst (reactions c0) /\
  fst (shearAndMoment c0 1000) == - (2 * snd (reactions c0)).
Proof.
  assert (Hspan : leftSupport c0 < rightSupport c0) by reflexivity.
  assert (Hload : leftSupport c0 <= loadStartPosition c0 <= rightSupport c0)
    by (split; discriminate).
  split.
  - destruct (point_load_shear_pieces c0 eq_refl eq_refl Hspan Hload 250)
      as (_ & H & _).
    apply H. split; [discriminate | reflexivity].
  - destruct (point_load_shear_pieces c0 eq_refl eq_refl Hspan Hload 1000)
      as (_ & _ & _ & H).
    apply H. discriminate.
Defined.

Lemma point_load_moment_pieces_witness :
  snd (shearAndMoment c0 1000) == 0 /\
  snd (shearAndMoment c0 750) == snd (reactions c0) * (1000 - 750).
Proof.
  assert (Hspan : leftSupport c0 < rightSupport c0) by reflexivity.
  assert (Hload : leftSupport c0 <= loadStartPosition c0 <= rightSupport c0)
    by (split; discriminate).
  split.
  - destruct (point_load_moment_pieces c0 eq_refl eq_refl Hspan Hload 1000)
      as (_ & _ & _ & H).
    apply H. right. reflexivity.
  - destruct (point_load_moment_pieces c0 eq_refl eq_refl Hspan Hload 750)
      as (_ & H & _).
    apply H. split; [reflexivity | discriminate].
Defined.

Lemma stored_moments_bounded_witness :
  0 <= nth 49 (map (@y Q) (bendingMomentData
                             (calculateDiagrams c0 initialOutputs))) 0
    <= 250000.
Proof.
  assert (Hspan : leftSupport c0 < rightSupport c0) by reflexivity.
  assert (Hload : leftSupport c0 <= loadStartPosition c0 <= rightSupport c0)
    by (split; discriminate).
  assert (Hx : leftSupport c0 <= ofNat 49 * dx c0 <= rightSupport c0)
    by (split; discriminate).
  assert (HP : 0 <= loadMagnitude c0) by discriminate.
  assert (Hi : (49 < 100)%nat) by lia.
  destruct (stored_moments_bounded (c:=c0) eq_refl eq_refl Hspan Hload
              initialOutputs HP Hi Hx) as [H0 H1].
  split; [exact H0|].
  apply (Qle_trans _ _ _ H1). discriminate.
Defined.

Lemma uniform_load_shear_pieces_witness :
  fst (shearAndMoment cU 500)
  == fst (reactions cU) - 1 * (500 - 200).
Proof.
  assert (Hspan : leftSupport cU < rightSupport cU) by reflexivity.
  assert (Hstart : leftSupport cU <= loadStartPosition cU) by discriminate.
  assert (Hlen : loadStartPosition cU < loadEndPosition cU) by reflexivity.
  assert (Hend : loadEndPosition cU <= rightSupport cU) by discriminate.
  destruct (uniform_load_shear_pieces cU eq_refl eq_refl Hspan Hstart Hlen
              Hend 500) as (_ & _ & H & _).
  apply H. split; [discriminate | reflexivity].
Defined.

Lemma uniform_load_moment_pieces_witness :
  snd (shearAndMoment cU 0) == 0 /\ snd (shearAndMoment cU 1000) == 0.
Proof.
  assert (Hspan : leftSupport cU < rightSupport cU) by reflexivity.
  assert (Hstart : leftSupport cU <= loadStartPosition cU) by discriminate.
  assert (Hlen : loadStartPosition cU < loadEndPosition cU) by reflexivity.
  assert (Hend : loadEndPosition cU <= rightSupport cU) by discriminate.
  split.
  - destruct (uniform_load_moment_pieces cU eq_refl eq_refl Hspan Hstart
                Hlen Hend 0) as (_ & _ & _ & H).
    apply H. left. reflexivity.
  - destruct (uniform_load_moment_pieces cU eq_refl eq_refl Hspan Hstart
                Hlen Hend 1000) as (_ & _ & _ & H).
    apply H. right. reflexivity.
Defined.

Lemma cantilever_never_positive_witness :
  fst (shearAndMoment cK 300) <= 0 /\ snd (shearAndMoment cK 300) <= 0.
Proof.
  apply (cantilever_never_positive cK eq_refl 300).
  - discriminate.
  - right. split; [reflexivity | split; discriminate].
Defined.

(** The moment at the fixed end is -10 x 1000 x 500. *)
Lemma cantilever_full_uniform_load_witness :
  fst (shearAndMoment cK 0) == - 10000 /\
  snd (shearAndMoment cK 0) == - 5000000.
Proof.
  destruct (cantilever_full_uniform_load cK eq_refl (x:=0)) as [H1 H2].
  - reflexivity.
  - reflexivity.
  - reflexivity.
  - split; discriminate.
  - split.
    + apply (Qeq_trans _ _ _ H1). reflexivity.
    + apply (Qeq_trans _ _ _ H2). reflexivity.
Defined.


Lemma section_properties_positive_witness :
  0 < area c0 /\ 0 < rawMomentOfInertia c0 /\ 0 < rawSectionModulus c0.
Proof.
  destruct (section_properties_positive c0) as (H1 & H2 & H3 & _).
  - split; reflexivity.
  - split; [exact H1 | split; [exact H2 | exact H3]].
Defined.

Lemma rectangular_closed_forms_witness :
  rawMomentOfInertia (setHeight (2 * height c0) c0)
  == 2 ^ 3 * rawMomentOfInertia c0.
Proof.
  apply (rectangular_closed_forms c0 2); reflexivity.
Defined.

Lemma circular_closed_forms_witness :
  let c := setBeamCrossSection "Circular" c0 in
  rawMomentOfInertia c == area c * (diameter c / 1000) ^ 2 / 16.
Proof.
  apply (circular_closed_forms (setBeamCrossSection "Circular" c0));
    reflexivity.
Defined.

End Witnesses.

Lemma unrecognized_beam_type_is_flat_witness :
  let c := setBeamType "Fixed Beam" (initialInputs (N:=spec_float)) in
  nth 50 (map (@y _) (bendingMomentData (calculateDiagrams c initialOutputs)))
      Binary64.NaN
  = Binary64.zero.
Proof.
  destruct (unrecognized_beam_type_is_flat
              (setBeamType "Fixed Beam" (initialInputs (N:=spec_float)))
              initialOutputs (i:=50) Binary64.NaN) as (_ & _ & H).
  - left. split; discriminate.
  - unfold numPoints. lia.
  - exact H.
Defined.

(** ** Sampling a beam of length 0 *)

Section ZeroLength.

Import Binary64.

Local Open Scope js_scope.

(** The positions of a series depend on the beam length alone. *)
Lemma positions_by_length (c : Inputs spec_float) (o : Outputs spec_float) :
  positions (shearForceData (calculateDiagrams c o))
  = map (fun i => toFixed (ofNat i * (beamLength c / num 99)) 2)
        (seq 0 100).
Proof.
  unfold positions, calculateDiagrams; cbn [shearForceData].
  rewrite map_map. apply map_ext. intro i.
  destruct (samplesAt_x c i) as [-> _]. reflexivity.
Qed.

(** With the beam length at 0 (an emptied length field) the step between
    samples is 0: the series still have 100 samples, and every one of them
    is stored at position 0. *)
Theorem zero_length_positions (c : Inputs spec_float) (o : Outputs spec_float) :
  isZero (beamLength c) = true ->
  List.length (shearForceData (calculateDiagrams c o)) = 100%nat /\
  forallb (fun x => SFeqb x zero && negb (signbit x))
          (positions (shearForceData (calculateDiagrams c o))) = true /\
  positions (bendingMomentData (calculateDiagrams c o))
  = positions (shearForceData (calculateDiagrams c o)).
Proof.
  intro HL. split; [apply calculateDiagrams_length|].
  split; [|apply moment_positions].
  rewrite positions_by_length.
  destruct (beamLength c) as [[]| | |]; try discriminate; reflexivity.
Qed.

Lemma zero_length_positions_witness :
  let c := setBeamLength (num 0) initialInputs in
  forallb (fun x => SFeqb x zero && negb (signbit x))
          (positions (shearForceData (calculateDiagrams c initialOutputs)))
  = true.
Proof.
  apply (zero_length_positions
           (setBeamLength (num 0) initialInputs) initialOutputs).
  reflexivity.
Defined.

End ZeroLength.
